(** * Endpoint dispatch and response normalisation of [runtime/server/endpoint.js]

    A shallow embedding of [render_endpoint] and of the helpers it is built
    from ([error], [is_string], [is_text], the two constant sets), followed
    by the properties the specification states about them.

    - JavaScript values are an inductive type; numbers are the integers.
    - [Headers] instances live in a store and are handed around by address,
      so that aliasing between the handler's header map and the engine's own
      one can be expressed; [headers.set] writes in place.
    - The asynchronous, possibly throwing body of [render_endpoint] is
      written in a state-and-exception monad over that store.
    - A [Response] is the record of what its constructor is given;
      [render_endpoint] yields that record, and [render_endpoint_checked]
      adds the checks of the constructor itself, which throws at a status
      outside 200..599.
    - What endpoint.js imports from other files ([check_method_names],
      [hash], the error serialiser) and the host's [JSON.stringify] are
      parameters of the development; [is_pojo], [to_headers] and
      [serialize_error] are modelled from the specification. *)

From Stdlib Require Import ZArith String Ascii List Bool Lia DecimalString.
From stdpp Require Import gmap strings.

Local Open Scope string_scope.
#[local] Set Warnings "-register-all".

(** ** String primitives of the host language *)

Module Js.

Definition lower_ascii (c : ascii) : ascii :=
  let n := nat_of_ascii c in
  if (65 <=? n)%nat && (n <=? 90)%nat then ascii_of_nat (n + 32) else c.

(** [s.toLowerCase()] on the ASCII range. *)
Fixpoint toLowerCase (s : string) : string :=
  match s with
  | EmptyString => EmptyString
  | String c r => String (lower_ascii c) (toLowerCase r)
  end.

(** [s.startsWith(p)] *)
Fixpoint startsWith (s p : string) : bool :=
  match p, s with
  | EmptyString, _ => true
  | String _ _, EmptyString => false
  | String a p', String b s' => Ascii.eqb a b && startsWith s' p'
  end.

(** [s.includes(p)]: [p] occurs somewhere in [s]. *)
Fixpoint includes (s p : string) : bool :=
  startsWith s p ||
  match s with
  | EmptyString => false
  | String _ r => includes r p
  end.

(** [s.endsWith(p)] *)
Fixpoint endsWith (s p : string) : bool :=
  String.eqb s p ||
  match s with
  | EmptyString => false
  | String _ r => endsWith r p
  end.

(** [s.split(sep)[0]] for a one-character separator: the part of [s] in
    front of the first [sep], all of [s] when there is none. *)
Fixpoint split_head (sep : ascii) (s : string) : string :=
  match s with
  | EmptyString => EmptyString
  | String c r => if Ascii.eqb c sep then EmptyString else String c (split_head sep r)
  end.

(** [xs.join(sep)] *)
Fixpoint join (sep : string) (xs : list string) : string :=
  match xs with
  | [] => ""
  | [x] => x
  | x :: rest => x +:+ sep +:+ join sep rest
  end.

(** Decimal rendering of an array index, as [for ... in] yields it. *)
Definition index_key (i : nat) : string := NilEmpty.string_of_uint (Nat.to_uint i).

(** Decimal rendering of an integer number. *)
Definition number_to_string (n : Z) : string := NilEmpty.string_of_int (Z.to_int n).

(** The keys [for (const k in arr)] enumerates for an array: its indices,
    as strings, in ascending order. *)
Definition for_in_keys {A} (arr : list A) : list string :=
  map index_key (seq 0 (length arr)).

End Js.

(** ** Values *)

(** Address of a [Headers] instance in the store. *)
Abbreviation loc := nat.

(** The JavaScript values a handler can hand back.  Numbers are the integers;
    a [Uint8Array] is its bytes; a [ReadableStream] is opaque and only has an
    identity; a [Headers] instance is an address into the store. *)
Inductive value : Type :=
  | VUndefined
  | VNull
  | VBool (b : bool)
  | VNumber (n : Z)
  | VString (s : string)
  | VFunction (name : string)
  | VStringObject (s : string)
  | VUint8Array (bytes : list Z)
  | VReadableStream (id : nat)
  | VError (message : string)
  | VHeaders (l : loc)
  | VArray (items : list value)
  | VObject (fields : list (string * value)).

(** [typeof v] *)
Definition typeof (v : value) : string :=
  match v with
  | VUndefined => "undefined"
  | VBool _ => "boolean"
  | VNumber _ => "number"
  | VString _ => "string"
  | VFunction _ => "function"
  | VNull | VStringObject _ | VUint8Array _ | VReadableStream _
  | VError _ | VHeaders _ | VArray _ | VObject _ => "object"
  end.

(** Truthiness, as [if (v)], [!v] and [a || b] test it. *)
Definition truthy (v : value) : bool :=
  match v with
  | VUndefined | VNull => false
  | VBool b => b
  | VNumber n => negb (n =? 0)%Z
  | VString s => negb (String.eqb s "")
  | _ => true
  end.

(** Truthiness of what [headers.get(name)] returns: [null] or a string. *)
Definition truthy_str (o : option string) : bool :=
  match o with
  | None => false
  | Some s => negb (String.eqb s "")
  end.

Fixpoint assoc {A} (k : string) (fields : list (string * A)) : option A :=
  match fields with
  | [] => None
  | (k', v) :: rest => if String.eqb k k' then Some v else assoc k rest
  end.

(** [v.k] for a value that is not [null] or [undefined]: own properties of a
    plain object; the other object kinds carry none of the properties
    [render_endpoint] reads. *)
Definition get_prop (v : value) (k : string) : value :=
  match v with
  | VObject fields => match assoc k fields with Some x => x | None => VUndefined end
  | _ => VUndefined
  end.

(** [v instanceof Uint8Array], [v instanceof ReadableStream],
    [v instanceof Error], [v instanceof Headers] *)
Definition instanceof_Uint8Array (v : value) : bool :=
  match v with VUint8Array _ => true | _ => false end.
Definition instanceof_ReadableStream (v : value) : bool :=
  match v with VReadableStream _ => true | _ => false end.
Definition instanceof_Error (v : value) : bool :=
  match v with VError _ => true | _ => false end.
Definition instanceof_String (v : value) : bool :=
  match v with VStringObject _ => true | _ => false end.

(** [function is_string(s)], endpoint.js lines 13-15. *)
Definition is_string (s : value) : bool :=
  String.eqb (typeof s) "string" || instanceof_String s.

(** ** Header lists *)

(** The contents of a [Headers] instance: name/value pairs; names compare
    without regard to case. *)
Abbreviation hlist := (list (string * string)).

Module Hdr.

Definition same_name (a b : string) : bool :=
  String.eqb (Js.toLowerCase a) (Js.toLowerCase b).

Definition values (name : string) (h : hlist) : list string :=
  map snd (List.filter (fun p => same_name (fst p) name) h).

(** [headers.has(name)] *)
Definition has (name : string) (h : hlist) : bool :=
  existsb (fun p => same_name (fst p) name) h.

(** [headers.get(name)]: [null] when there is no such header, else its
    values joined by a comma and a space. *)
Definition get (name : string) (h : hlist) : option string :=
  match values name h with
  | [] => None
  | vs => Some (Js.join ", " vs)
  end.

(** [headers.set(name, v)] *)
Definition set (name v : string) (h : hlist) : hlist :=
  (List.filter (fun p => negb (same_name (fst p) name)) h ++ [(name, v)])%list.

(** [headers.append(name, v)] *)
Definition append (name v : string) (h : hlist) : hlist :=
  (h ++ [(name, v)])%list.

End Hdr.

(** ** The store, and computations over it *)

(** The store holds the contents of every [Headers] instance that exists; an
    address is an index into it, and allocation extends it at the end. *)
Abbreviation store := (list hlist).

(** What a handler, or [render_endpoint] itself, can throw. *)
Inductive exn : Type :=
  | Error (message : string)
  | TypeError (message : string)
  | RangeError (message : string)
  | Raised (v : value).

Inductive outcome (A : Type) : Type :=
  | Ok (a : A)
  | Thrown (e : exn).
Arguments Ok {A} a.
Arguments Thrown {A} e.

(** A computation reads and writes the store and either returns or throws. *)
Definition M (A : Type) : Type := store -> outcome A * store.

Definition ret {A} (a : A) : M A := fun σ => (Ok a, σ).
Definition throw {A} (e : exn) : M A := fun σ => (Thrown e, σ).
Definition bind {A B} (m : M A) (k : A -> M B) : M B :=
  fun σ => match m σ with
           | (Ok a, σ') => k a σ'
           | (Thrown e, σ') => (Thrown e, σ')
           end.

Declare Scope js_scope.
Delimit Scope js_scope with js.
Notation "x <- m ;; k" := (bind m (fun x => k))
  (at level 100, m at next level, right associativity) : js_scope.
Notation "m ;;; k" := (bind m (fun _ => k))
  (at level 100, right associativity) : js_scope.

Module Headers.

(** [new Headers()] filled with [init]: a fresh instance. *)
Definition new (init : hlist) : M loc :=
  fun σ => (Ok (length σ), (σ ++ [init])%list).

Definition contents (l : loc) : M hlist :=
  fun σ => (Ok (default [] (σ !! l)), σ).

(** [new Headers(src)] for an instance [src]: a fresh instance with a copy
    of the entries of [src]. *)
Definition copy (src : loc) : M loc :=
  (init <- contents src ;; new init)%js.

Definition get (l : loc) (name : string) : M (option string) :=
  (h <- contents l ;; ret (Hdr.get name h))%js.

Definition has (l : loc) (name : string) : M bool :=
  (h <- contents l ;; ret (Hdr.has name h))%js.

(** [headers.set(name, v)] writes to the instance at [l], in place. *)
Definition set (l : loc) (name v : string) : M unit :=
  fun σ => (Ok tt, alter (Hdr.set name v) l σ).

End Headers.

(** ** Requests, responses, handler modules *)

Record Request := { method : string; request_headers : hlist }.

(** The part of a [RequestEvent] that [render_endpoint] reads. *)
Record RequestEvent := { request : Request; url_pathname : string }.

(** [new Response(body, { status, headers })], as the record of what the
    constructor is given: [VUndefined] for a response without body, and the
    header entries by value (the constructor copies them).  Whether the
    constructor accepts these arguments is [Response_refusal] below. *)
Record Response := { body : value; status : value; headers : hlist }.

(** An exported handler: called with the event, it may allocate and write
    [Headers] instances, and it returns a value or throws. *)
Abbreviation RequestHandler := (RequestEvent -> M value).

(** A handler module: export name to handler. *)
Abbreviation Module_ := (gmap string RequestHandler).

(** [function error(body)], endpoint.js lines 6-10. *)
Definition error (body_ : string) : Response :=
  {| body := VString body_; status := VNumber 500; headers := [] |}.

(** [const text_types], endpoint.js lines 17-22. *)
Definition text_types : gset string :=
  {[ "application/xml"; "application/json";
     "application/x-www-form-urlencoded"; "multipart/form-data" ]}.

(** [const bodyless_status_codes], endpoint.js line 24.  [Set.has] compares
    a number with the members; any other kind of value is not a member. *)
Definition bodyless_status_codes : gset Z := {[ 101; 204; 205; 304 ]}%Z.

Definition bodyless_has (status_ : value) : bool :=
  match status_ with
  | VNumber n => bool_decide (n ∈ bodyless_status_codes)
  | _ => false
  end.

(** [function is_text(content_type)], endpoint.js lines 32-37. *)
Definition is_text (content_type : option string) : bool :=
  if negb (truthy_str content_type) then true
  else
    let type := Js.toLowerCase (Js.split_head ";" (default "" content_type)) in
    Js.startsWith type "text/" || Js.endsWith type "+xml"
    || bool_decide (type ∈ text_types).

(** [String(v)], the coercion [Headers] applies to a value it is given. *)
Definition to_string (v : value) : string :=
  match v with
  | VString s | VStringObject s => s
  | VNumber n => Js.number_to_string n
  | VBool true => "true"
  | VBool false => "false"
  | VUndefined => "undefined"
  | VNull => "null"
  | VError m => "Error: " +:+ m
  | _ => "[object Object]"
  end.

(** [v.k], which throws on [null] and [undefined]. *)
Definition member (v : value) (k : string) : M value :=
  match v with
  | VUndefined | VNull =>
      throw (TypeError ("Cannot read properties of " +:+ to_string v))
  | _ => ret (get_prop v k)
  end.

(** A destructuring default, [const { k = d } = o]: [d] replaces [undefined]
    only. *)
Definition or_default (d v : value) : value :=
  match v with
  | VUndefined => d
  | _ => v
  end.

Definition defined {A} (o : option A) : bool :=
  match o with
  | Some _ => true
  | None => false
  end.

(** The double quote character, as a one-character string. *)
Definition dquote : string := String (ascii_of_nat 34) EmptyString.

(** Modelled from the spec: [is_pojo] of runtime/server/utils.js, which is not
    among the files verified here.  Of the body shapes, only a JSON-like
    structured value and an error value are serialised by the engine; text,
    binary and stream bodies pass through. *)
Definition is_pojo (body_ : value) : bool :=
  match body_ with
  | VObject _ | VArray _ | VError _ => true
  | _ => false
  end.

(** Modelled from the spec: [to_headers] of utils/http.js, which is not
    among the files verified here.  It builds a header map from a plain record of
    name to string or array of strings: an array contributes one entry per
    item, any other value one entry, and a name without a value none. *)
Definition to_headers_entry (h : hlist) (kv : string * value) : hlist :=
  if negb (truthy (snd kv)) then h
  else match snd kv with
       | VArray items =>
           fold_left (fun acc x => Hdr.append (fst kv) (to_string x) acc) items h
       | v => Hdr.set (fst kv) (to_string v) h
       end.

(** The entries [to_headers] collects from [object]; anything but a plain
    record contributes none. *)
Definition to_headers_list (object : value) : hlist :=
  match object with
  | VObject fields => fold_left to_headers_entry fields []
  | _ => []
  end.

(** [to_headers(object)] returns a fresh header map with these entries. *)
Definition to_headers (object : value) : M loc :=
  Headers.new (to_headers_list object).

(** The one option the engine consumes: the stack policy handed to the error
    serialiser, of a type the embedding application chooses. *)
Record SSROptions (GetStack : Type) := { get_stack : GetStack }.
Arguments get_stack {GetStack} _.

(** ** Stand-ins for the collaborators

    Concrete functions to run the engine with: a JSON encoder for the values
    above, a content hash, and an error serialiser that keeps the message. *)

Module Sample.

Fixpoint json_encode (v : value) : string :=
  match v with
  | VBool true => "true"
  | VBool false => "false"
  | VNumber n => Js.number_to_string n
  | VString s | VStringObject s => dquote +:+ s +:+ dquote
  | VArray items => "[" +:+ Js.join "," (map json_encode items) +:+ "]"
  | VObject fields =>
      "{" +:+ Js.join ","
                (map (fun kv => match kv with
                                | (k, x) => dquote +:+ k +:+ dquote +:+ ":" +:+ json_encode x
                                end) fields) +:+ "}"
  | VUndefined | VNull | VFunction _ => "null"
  | VUint8Array _ | VReadableStream _ | VError _ | VHeaders _ => "{}"
  end.

Fixpoint djb2 (acc : Z) (s : string) : Z :=
  match s with
  | EmptyString => acc
  | String c r =>
      djb2 (Z.lxor (acc * 33 mod 2 ^ 32) (Z.of_nat (nat_of_ascii c))) r
  end.

Definition hash (v : value) : string :=
  match v with
  | VString s => Js.number_to_string (djb2 5381 s)
  | VUint8Array bytes =>
      Js.number_to_string
        (fold_left (fun acc b => Z.lxor (acc * 33 mod 2 ^ 32) b) bytes 5381%Z)
  | _ => "0"
  end.

Definition error_object (e : value) (with_stack : bool) : value :=
  match e with
  | VError m => VObject [("message", VString m)]
  | _ => VObject []
  end.

Definition check_method_names (mod_ : Module_) : option exn := None.

(** The conversion of a status that is not a number, for the samples: true
    counts as 1, everything else as 0.  The samples use number statuses
    only. *)
Definition to_integer (v : value) : Z :=
  match v with
  | VNumber n => n
  | VBool true => 1
  | _ => 0
  end.

Definition event (m : string) (hs : hlist) : RequestEvent :=
  {| request := {| method := m; request_headers := hs |}; url_pathname := "/items" |}.

Definition options : SSROptions bool := {| get_stack := false |}.

(** A handler that returns [v]. *)
Definition returning (v : value) : RequestHandler := fun _ => ret v.

(** A handler that creates a header map with [init] and returns the result
    [mk] builds around it. *)
Definition with_headers (init : hlist) (mk : loc -> value) : RequestHandler :=
  fun _ => (l <- Headers.new init ;; ret (mk l))%js.

Definition post_only : Module_ := {[ "POST" := returning (VObject []) ]}.

Definition get_only (v : value) : Module_ := {[ "GET" := returning v ]}.

Definition head_only : Module_ := {[ "HEAD" := returning (VObject []) ]}.

Definition a1 : value := VObject [("a", VNumber 1)].

(** A handler that throws [e]. *)
Definition throwing (e : exn) : RequestHandler := fun _ => throw e.

Definition get_only' (handler : RequestHandler) : Module_ := {[ "GET" := handler ]}.

Definition get_and_post : Module_ :=
  {[ "GET" := returning a1; "POST" := returning a1 ]}.

Definition head_and_get : Module_ :=
  {[ "HEAD" := returning (VNumber 1); "GET" := returning (VNumber 2) ]}.

End Sample.

(** ** The command line, cli.js

    What a command does to the process: it writes lines with
    [console.error] and [console.warn], and it returns, throws, or ends the
    process with an exit code. *)

Module Cli.

(** An [Error] object, as cli.js reads it; [stack] may be undefined. *)
Record JsError := { name : string; message : string; stack : option string }.

(** What can be thrown: an [Error] object or any other value. *)
Inductive thrown : Type :=
  | AnError (e : JsError)
  | NotAnError (v : value).

Inductive line : Type :=
  | StdErr (text : string)
  | Warning (text : string).

Inductive ended (A : Type) : Type :=
  | Returned (a : A)
  | Threw (e : thrown)
  | Exited (code : Z).
Arguments Returned {A} a.
Arguments Threw {A} e.
Arguments Exited {A} code.

Definition IO (A : Type) : Type := list line -> ended A * list line.

Definition ret {A} (a : A) : IO A := fun out => (Returned a, out).
Definition throw {A} (e : thrown) : IO A := fun out => (Threw e, out).
Definition bind {A B} (m : IO A) (k : A -> IO B) : IO B :=
  fun out => match m out with
             | (Returned a, out') => k a out'
             | (Threw e, out') => (Threw e, out')
             | (Exited code, out') => (Exited code, out')
             end.

(** [try { m } catch (error) { h(error) }]: an exit is not an exception. *)
Definition try_catch {A} (m : IO A) (h : thrown -> IO A) : IO A :=
  fun out => match m out with
             | (Threw e, out') => h e out'
             | other => other
             end.

Definition console_error (text : string) : IO unit :=
  fun out => (Returned tt, (out ++ [StdErr text])%list).
Definition console_warn (text : string) : IO unit :=
  fun out => (Returned tt, (out ++ [Warning text])%list).
Definition process_exit {A} (code : Z) : IO A := fun out => (Exited code, out).

(** The line feed, as a one-character string. *)
Definition nl : string := String "010"%char EmptyString.

(** [s.split(sep)] for a one-character separator. *)
Fixpoint split (sep : ascii) (s : string) : list string :=
  match s with
  | EmptyString => [EmptyString]
  | String c r =>
      if Ascii.eqb c sep then EmptyString :: split sep r
      else match split sep r with
           | first :: others => String c first :: others
           | [] => [String c EmptyString]
           end
  end.

(** The colour functions of kleur that cli.js calls: [colors.bold().red],
    [colors.gray], [colors.grey], [colors.cyan]. *)
Record Kleur := {
  bold_red : string -> string;
  gray : string -> string;
  grey : string -> string;
  cyan : string -> string
}.

(** What cli.js imports: kleur, [coalesce_to_error], [fs.existsSync],
    [load_config], and the module ./core/sync/sync.js with its function
    [all]. *)
Record Imports := {
  Config : Type;
  colors : Kleur;
  coalesce_to_error : thrown -> JsError;
  existsSync : string -> bool;
  load_config : IO Config;
  import_sync : IO (Config -> IO unit)
}.

(** [function handle_error(e)], cli.js lines 8-19. *)
Definition handle_error (im : Imports) (e : thrown) : IO unit :=
  let error := coalesce_to_error im e in
  if String.eqb (name error) "SyntaxError" then throw (AnError error)
  else
    bind (console_error (bold_red (colors im) ("> " +:+ message error))) (fun _ =>
    bind (if truthy_str (stack error)
          then console_error
                 (gray (colors im) (Js.join nl (tl (split "010" (default "" (stack error))))))
          else ret tt) (fun _ =>
    process_exit 1)).

(** The action of the [sync] command, cli.js lines 26-39. *)
Definition sync_action (im : Imports) : IO unit :=
  if negb (existsSync im "svelte.config.js") then
    console_warn "Missing svelte.config.js — skipping"
  else
    try_catch
      (bind (load_config im) (fun config =>
       bind (import_sync im) (fun sync_all =>
       sync_all config)))
      (fun error => handle_error im error).

(** Stand-ins to run the commands with: colours left out, a configuration
    that fails to load with the given error, a sync module that does
    nothing. *)
Definition plain : Kleur :=
  {| bold_red := fun s => s; gray := fun s => s; grey := fun s => s; cyan := fun s => s |}.

Definition failing_with (e : JsError) (config_exists : bool) : Imports :=
  {| Config := unit;
     colors := plain;
     coalesce_to_error := fun t => match t with
                                   | AnError e' => e'
                                   | NotAnError _ =>
                                       {| name := "Error"; message := "unknown"; stack := None |}
                                   end;
     existsSync := fun _ => config_exists;
     load_config := throw (AnError e);
     import_sync := ret (fun _ => ret tt) |}.

Definition no_config_export : JsError :=
  {| name := "Error";
     message := "svelte.config.js has no default export";
     stack := Some ("Error: svelte.config.js has no default export" +:+ nl
                    +:+ "    at load_config" +:+ nl +:+ "    at async sync") |}.

End Cli.

Section Engine.

(** Collaborators that are imported by endpoint.js but defined elsewhere:
    [check_method_names] (returns, or throws the given exception), the
    content [hash], the host's [JSON.stringify], and the error serialiser
    with the stack policy it is configured with. *)
Variable check_method_names : Module_ -> option exn.
Variable hash : value -> string.
Variable JSON_stringify : value -> string.
Variable GetStack : Type.
Variable ErrorSerializer : value -> GetStack -> value.

(** Modelled from the spec: [serialize_error] of runtime/server/utils.js,
    which is not among the files verified here.  An error value goes through
    the error serialiser first and is then JSON-encoded. *)
Definition serialize_error (e : value) (gs : GetStack) : value :=
  VString (JSON_stringify (ErrorSerializer e gs)).

(** endpoint.js lines 83-142: what [render_endpoint] does with the value
    the handler returned. *)
Definition normalize (event : RequestEvent) (response : value)
    (options : SSROptions GetStack) : M Response :=
  let method_ := method (request event) in
  let preface := "Invalid response from route " +:+ url_pathname event in
  (* lines 85-87: if (typeof response !== 'object') return error(...) *)
  if negb (String.eqb (typeof response) "object") then
    ret (error (preface +:+ ": expected an object, got " +:+ typeof response))
  else
    (* lines 91-95: if (response.fallthrough) throw new Error(...) *)
    (fallthrough <- member response "fallthrough" ;;
     if truthy fallthrough then
       throw (Error "fallthrough is no longer supported. Use matchers instead: https://kit.svelte.dev/docs/routing#advanced-routing-matching")
     else
       (* line 97: const { status = 200, body = {} } = response *)
       let status_ := or_default (VNumber 200) (get_prop response "status") in
       let body_ := or_default (VObject []) (get_prop response "body") in
       (* lines 98-101: a copy of a Headers instance, else to_headers(...) *)
       headers_ <- match get_prop response "headers" with
                   | VHeaders src => Headers.copy src
                   | object => to_headers object
                   end ;;
       type <- Headers.get headers_ "content-type" ;;
       (* lines 105-112: the body check *)
       if negb (is_text type)
          && negb (instanceof_Uint8Array body_ || instanceof_ReadableStream body_
                   || is_string body_)
       then
         ret (error (preface +:+ ": body must be an instance of string, Uint8Array or ReadableStream if content-type is not a supported textual content-type"))
       else
         (* lines 117-123: the encoding decision *)
         normalized_body <-
           (if is_pojo body_
               && (negb (truthy_str type)
                   || Js.startsWith (default "" type) "application/json")
            then
              Headers.set headers_ "content-type" "application/json; charset=utf-8" ;;;
              ret (if instanceof_Error body_
                   then serialize_error body_ (get_stack options)
                   else VString (JSON_stringify body_))
            else ret body_) ;;
         (* lines 125-133: the validator; the pattern /(no-store|immutable)/
            matches a string that contains one of the two words *)
         (if String.eqb (typeof normalized_body) "string"
             || instanceof_Uint8Array normalized_body
          then
            has_etag <- Headers.has headers_ "etag" ;;
            if negb has_etag then
              cache_control <- Headers.get headers_ "cache-control" ;;
              if negb (truthy_str cache_control)
                 || negb (Js.includes (default "" cache_control) "no-store"
                          || Js.includes (default "" cache_control) "immutable")
              then Headers.set headers_ "etag" (dquote +:+ hash normalized_body +:+ dquote)
              else ret tt
            else ret tt
          else ret tt) ;;;
         (* lines 135-141: the response is built from the header map as it is
            now *)
         final <- Headers.contents headers_ ;;
         ret {| body := if negb (String.eqb method_ "HEAD") && negb (bodyless_has status_)
                        then normalized_body else VUndefined;
                status := status_;
                headers := final |})%js.

(** endpoint.js lines 45-82, then [normalize] on what the handler returns. *)
Definition render_endpoint (event : RequestEvent) (mod_ : Module_)
    (options : SSROptions GetStack) : M Response :=
  let method_ := method (request event) in
  (match check_method_names mod_ with
   | Some e => throw e
   | None => ret tt
   end ;;;
   (* lines 51-55: let handler = mod[method]; HEAD falls back to mod.GET *)
   let handler := mod_ !! method_ in
   let handler :=
     if negb (defined handler) && String.eqb method_ "HEAD"
     then mod_ !! "GET" else handler in
   match handler with
   | None =>
       (* lines 60-62: for (const method in [...]) if (mod[method])
          allowed.push(method), where [in] yields the keys of the array *)
       let allowed :=
         List.filter (fun m => defined (mod_ !! m))
           (Js.for_in_keys ["GET"; "POST"; "PUT"; "PATCH"; "DELETE"]) in
       (* line 64: if (mod.GET || mod.HEAD) allowed.push('HEAD') *)
       let allowed :=
         if defined (mod_ !! "GET") || defined (mod_ !! "HEAD")
         then (allowed ++ ["HEAD"])%list else allowed in
       ret (if truthy_str (Hdr.get "x-sveltekit-load" (request_headers (request event)))
            then {| body := VUndefined; status := VNumber 204; headers := [] |}
            else {| body := VString (method_ +:+ " method not allowed");
                    status := VNumber 405;
                    headers := [("allow", Js.join ", " allowed)] |})
   | Some handler =>
       (* line 82: const response = await handler(event) *)
       response <- handler event ;;
       normalize event response options
   end)%js.

(** *** The constructor's own checks

    [render_endpoint] above yields what the last [new Response(...)] of each
    return is given.  The constructor of the host refuses some arguments:
    the status, converted to an unsigned short, has to lie between 200 and
    599, or it throws a RangeError; and a body that is not null with one of
    the null-body statuses is a TypeError.  Header entries taken from a
    [Headers] instance are accepted as they are, and a stream is taken to be
    unread. *)

(** The host's conversion to a number, truncated to an integer, of a status
    that is not a number. *)
Variable ToInteger : value -> Z.

(** The status as the constructor reads it: an unsigned short; a status
    that is [undefined] is the default 200. *)
Definition status_code (status_ : value) : Z :=
  match status_ with
  | VNumber n => n mod 65536
  | VUndefined => 200
  | other => ToInteger other mod 65536
  end.

Definition null_body_status (code : Z) : bool :=
  existsb (Z.eqb code) [101; 103; 204; 205; 304]%Z.

(** A body argument that gives a response without body. *)
Definition null_body (body_ : value) : bool :=
  match body_ with
  | VUndefined | VNull => true
  | _ => false
  end.

(** What the constructor throws at these arguments, if anything. *)
Definition Response_refusal (r : Response) : option exn :=
  let code := status_code (status r) in
  if negb ((200 <=? code)%Z && (code <=? 599)%Z) then
    Some (RangeError "The status provided is outside the range [200, 599].")
  else if negb (null_body (body r)) && null_body_status code then
    Some (TypeError "Response with null body status cannot have body")
  else None.

(** [render_endpoint] as its caller sees it: with the checks of the
    constructor it ends in. *)
Definition render_endpoint_checked (event : RequestEvent) (mod_ : Module_)
    (options : SSROptions GetStack) : M Response :=
  (r <- render_endpoint event mod_ options ;;
   match Response_refusal r with
   | Some e => throw e
   | None => ret r
   end)%js.

(** A name as the allow header can list it without ambiguity: not empty and
    free of commas. *)
Definition allow_token (m : string) : Prop :=
  m <> "" /\ Js.includes m "," = false.

(** *** The engine's decisions, as functions of the handler's result

    The pieces of [normalize] that the properties below talk about, named:
    the handler targeted by a request, the fields read from the result with
    their defaults, the header entries the engine starts from, the body
    check, the encoding decision and the validator decision. *)

Definition resolve (mod_ : Module_) (method_ : string) : option RequestHandler :=
  if negb (defined (mod_ !! method_)) && String.eqb method_ "HEAD"
  then mod_ !! "GET" else mod_ !! method_.

Definition status_of (response : value) : value :=
  or_default (VNumber 200) (get_prop response "status").

Definition body_of (response : value) : value :=
  or_default (VObject []) (get_prop response "body").

Definition headers_of (σ : store) (response : value) : hlist :=
  match get_prop response "headers" with
  | VHeaders src => default [] (σ !! src)
  | object => to_headers_list object
  end.

Definition content_type_of (σ : store) (response : value) : option string :=
  Hdr.get "content-type" (headers_of σ response).

(** A result that gets past the object check and the fallthrough check. *)
Definition well_formed (response : value) : Prop :=
  typeof response = "object" /\ response <> VNull
  /\ truthy (get_prop response "fallthrough") = false.

Definition body_accepted (type : option string) (body_ : value) : bool :=
  is_text type
  || (instanceof_Uint8Array body_ || instanceof_ReadableStream body_ || is_string body_).

Definition encodes_json (type : option string) (body_ : value) : bool :=
  is_pojo body_
  && (negb (truthy_str type) || Js.startsWith (default "" type) "application/json").

Definition encoded_body (options : SSROptions GetStack) (type : option string)
    (body_ : value) : value :=
  if encodes_json type body_ then
    if instanceof_Error body_ then serialize_error body_ (get_stack options)
    else VString (JSON_stringify body_)
  else body_.

Definition encoded_headers (type : option string) (body_ : value) (h : hlist) : hlist :=
  if encodes_json type body_
  then Hdr.set "content-type" "application/json; charset=utf-8" h else h.

Definition etag_wanted (normalized_body : value) (h : hlist) : bool :=
  (String.eqb (typeof normalized_body) "string" || instanceof_Uint8Array normalized_body)
  && negb (Hdr.has "etag" h)
  && (negb (truthy_str (Hdr.get "cache-control" h))
      || negb (Js.includes (default "" (Hdr.get "cache-control" h)) "no-store"
               || Js.includes (default "" (Hdr.get "cache-control" h)) "immutable")).

Definition etag_of (normalized_body : value) : string :=
  dquote +:+ hash normalized_body +:+ dquote.

Definition final_headers (options : SSROptions GetStack) (σ : store) (response : value) : hlist :=
  let type := content_type_of σ response in
  let nb := encoded_body options type (body_of response) in
  let h := encoded_headers type (body_of response) (headers_of σ response) in
  if etag_wanted nb h then Hdr.set "etag" (etag_of nb) h else h.

Definition suppressed (method_ : string) (status_ : value) : bool :=
  String.eqb method_ "HEAD" || bodyless_has status_.

Definition final_response (event : RequestEvent) (options : SSROptions GetStack)
    (σ : store) (response : value) : Response :=
  {| body := if suppressed (method (request event)) (status_of response)
             then VUndefined
             else encoded_body options (content_type_of σ response) (body_of response);
     status := status_of response;
     headers := final_headers options σ response |}.

(** A content-type the encoding decision treats as absent: no header, or
    an empty value. *)
Definition absent (o : option string) : Prop := o = None \/ o = Some "".

(** The handler answered the request with [response], leaving store [σ1]. *)
Definition dispatched (event : RequestEvent) (mod_ : Module_) (σ : store)
    (response : value) (σ1 : store) : Prop :=
  check_method_names mod_ = None
  /\ exists handler, resolve mod_ (method (request event)) = Some handler
                     /\ handler event σ = (Ok response, σ1).

(** *** Header lists *)

Lemma same_name_refl k : Hdr.same_name k k = true.
Proof. apply String.eqb_refl. Qed.

Lemma same_name_trans a b c :
  Hdr.same_name a b = true -> Hdr.same_name a c = true -> Hdr.same_name b c = true.
Proof.
  unfold Hdr.same_name. rewrite !String.eqb_eq. congruence.
Qed.

Lemma filter_same_after_drop k (h : hlist) :
  List.filter (fun p => Hdr.same_name (fst p) k)
    (List.filter (fun p => negb (Hdr.same_name (fst p) k)) h) = [].
Proof.
  induction h as [|p h IH]; simpl; [reflexivity|].
  destruct (Hdr.same_name (fst p) k) eqn:E; simpl; [|rewrite E]; exact IH.
Qed.

Lemma filter_other_after_drop k k' (h : hlist) :
  Hdr.same_name k' k = false ->
  List.filter (fun p => Hdr.same_name (fst p) k)
    (List.filter (fun p => negb (Hdr.same_name (fst p) k')) h)
  = List.filter (fun p => Hdr.same_name (fst p) k) h.
Proof.
  intros Hne. induction h as [|p h IH]; simpl; [reflexivity|].
  destruct (Hdr.same_name (fst p) k') eqn:E'; simpl.
  - destruct (Hdr.same_name (fst p) k) eqn:E; [|exact IH].
    rewrite (same_name_trans _ _ _ E' E) in Hne. discriminate.
  - rewrite IH. reflexivity.
Qed.

Lemma values_set_same k v h : Hdr.values k (Hdr.set k v h) = [v].
Proof.
  unfold Hdr.values, Hdr.set. rewrite List.filter_app, filter_same_after_drop.
  simpl. rewrite same_name_refl. reflexivity.
Qed.

Lemma values_set_other k k' v h :
  Hdr.same_name k' k = false -> Hdr.values k (Hdr.set k' v h) = Hdr.values k h.
Proof.
  intros Hne. unfold Hdr.values, Hdr.set.
  rewrite List.filter_app, (filter_other_after_drop _ _ _ Hne). simpl.
  rewrite Hne. simpl. rewrite app_nil_r. reflexivity.
Qed.

Lemma get_set_same k v h : Hdr.get k (Hdr.set k v h) = Some v.
Proof. unfold Hdr.get. rewrite values_set_same. reflexivity. Qed.

Lemma get_set_other k k' v h :
  Hdr.same_name k' k = false -> Hdr.get k (Hdr.set k' v h) = Hdr.get k h.
Proof. intros Hne. unfold Hdr.get. rewrite (values_set_other _ _ _ _ Hne). reflexivity. Qed.

Lemma has_values k h :
  Hdr.has k h = match Hdr.values k h with [] => false | _ => true end.
Proof.
  unfold Hdr.has, Hdr.values. induction h as [|p h IH]; simpl; [reflexivity|].
  destruct (Hdr.same_name (fst p) k); simpl; [reflexivity | exact IH].
Qed.

Lemma has_get k h : Hdr.has k h = false <-> Hdr.get k h = None.
Proof.
  rewrite has_values. unfold Hdr.get.
  destruct (Hdr.values k h); split; intros; congruence.
Qed.

(** *** Running the store operations *)

Lemma bind_ok {A B} (m : M A) (k : A -> M B) σ a σ' :
  m σ = (Ok a, σ') -> bind m k σ = k a σ'.
Proof. intros H. unfold bind. rewrite H. reflexivity. Qed.

Lemma contents_fresh (σ : store) c :
  Headers.contents (length σ) (σ ++ [c])%list = (Ok c, (σ ++ [c])%list).
Proof.
  unfold Headers.contents.
  rewrite (list_lookup_middle σ [] c (length σ) eq_refl). reflexivity.
Qed.

Lemma get_fresh (σ : store) c name :
  Headers.get (length σ) name (σ ++ [c])%list = (Ok (Hdr.get name c), (σ ++ [c])%list).
Proof. unfold Headers.get. rewrite (bind_ok _ _ _ _ _ (contents_fresh σ c)). reflexivity. Qed.

Lemma has_fresh (σ : store) c name :
  Headers.has (length σ) name (σ ++ [c])%list = (Ok (Hdr.has name c), (σ ++ [c])%list).
Proof. unfold Headers.has. rewrite (bind_ok _ _ _ _ _ (contents_fresh σ c)). reflexivity. Qed.

Lemma set_fresh (σ : store) c name v :
  Headers.set (length σ) name v (σ ++ [c])%list = (Ok tt, (σ ++ [Hdr.set name v c])%list).
Proof.
  unfold Headers.set. f_equal.
  rewrite <- (Nat.add_0_r (length σ)) at 1. rewrite alter_app_r. reflexivity.
Qed.

(** The engine's own header map is a fresh instance holding the entries of
    the handler's. *)
Lemma own_headers_run (response : value) (σ : store) :
  match get_prop response "headers" with
  | VHeaders src => Headers.copy src
  | object => to_headers object
  end σ = (Ok (length σ), (σ ++ [headers_of σ response])%list).
Proof.
  unfold headers_of. destruct (get_prop response "headers"); reflexivity.
Qed.

Lemma member_ok (response : value) k σ :
  typeof response = "object" -> response <> VNull ->
  member response k σ = (Ok (get_prop response k), σ).
Proof.
  intros Ht Hn. destruct response; try reflexivity; try discriminate. congruence.
Qed.

(** The validator step, on the engine's own header map. *)
Lemma validator_run (σ : store) (nb : value) (h : hlist) :
  (if String.eqb (typeof nb) "string" || instanceof_Uint8Array nb
   then
     has_etag <- Headers.has (length σ) "etag" ;;
     if negb has_etag then
       cache_control <- Headers.get (length σ) "cache-control" ;;
       if negb (truthy_str cache_control)
          || negb (Js.includes (default "" cache_control) "no-store"
                   || Js.includes (default "" cache_control) "immutable")
       then Headers.set (length σ) "etag" (dquote +:+ hash nb +:+ dquote)
       else ret tt
     else ret tt
   else ret tt)%js (σ ++ [h])%list
  = (Ok tt, (σ ++ [if etag_wanted nb h then Hdr.set "etag" (etag_of nb) h else h])%list).
Proof.
  unfold etag_wanted, etag_of.
  destruct (String.eqb (typeof nb) "string" || instanceof_Uint8Array nb);
    [|reflexivity].
  unfold bind at 1. rewrite has_fresh.
  destruct (Hdr.has "etag" h); [reflexivity|].
  cbn [negb andb]. unfold bind at 1. rewrite get_fresh.
  destruct (negb (truthy_str (Hdr.get "cache-control" h))
            || negb (Js.includes (default "" (Hdr.get "cache-control" h)) "no-store"
                     || Js.includes (default "" (Hdr.get "cache-control" h)) "immutable"));
    [apply set_fresh | reflexivity].
Qed.

Lemma normalize_ok event response options σ :
  well_formed response ->
  body_accepted (content_type_of σ response) (body_of response) = true ->
  normalize event response options σ
  = (Ok (final_response event options σ response),
     (σ ++ [final_headers options σ response])%list).
Proof.
  intros (Ht & Hn & Hf) Hacc. unfold normalize. rewrite Ht.
  change (negb ("object" =? "object")) with false. cbv iota.
  unfold bind at 1. rewrite (member_ok _ "fallthrough" σ Ht Hn), Hf.
  unfold bind at 1. rewrite own_headers_run.
  unfold bind at 1. rewrite get_fresh.
  fold (content_type_of σ response). fold (body_of response). fold (status_of response).
  unfold body_accepted in Hacc.
  replace (negb (is_text (content_type_of σ response)) &&
     negb (instanceof_Uint8Array (body_of response)
        || instanceof_ReadableStream (body_of response)
        || is_string (body_of response))) with false
    by (rewrite <- negb_orb, Hacc; reflexivity).
  fold (encodes_json (content_type_of σ response) (body_of response)).
  unfold final_response, final_headers, encoded_body, encoded_headers, suppressed.
  rewrite <- negb_orb.
  destruct (encodes_json (content_type_of σ response) (body_of response)).
  - unfold bind at 1. unfold bind at 1. rewrite set_fresh. unfold ret at 1.
    set (nb := if instanceof_Error (body_of response) then _ else _).
    set (h := Hdr.set "content-type" _ _).
    unfold bind at 1. rewrite validator_run.
    unfold bind at 1. rewrite contents_fresh. unfold ret.
    destruct (String.eqb (method (request event)) "HEAD" || bodyless_has (status_of response));
      reflexivity.
  - unfold bind at 1. unfold ret at 1.
    unfold bind at 1. rewrite validator_run.
    unfold bind at 1. rewrite contents_fresh. unfold ret.
    destruct (String.eqb (method (request event)) "HEAD" || bodyless_has (status_of response));
      reflexivity.
Qed.

Lemma normalize_not_object event response options σ :
  typeof response <> "object" ->
  normalize event response options σ
  = (Ok (error (("Invalid response from route " +:+ url_pathname event)
                +:+ ": expected an object, got " +:+ typeof response)), σ).
Proof.
  intros Ht. unfold normalize.
  destruct (String.eqb_spec (typeof response) "object") as [E|_]; [contradiction|].
  reflexivity.
Qed.

Lemma marker_is_object response :
  truthy (get_prop response "fallthrough") = true ->
  typeof response = "object" /\ response <> VNull.
Proof. destruct response; simpl; intros H; try discriminate. split; [reflexivity | discriminate]. Qed.

Lemma normalize_fallthrough event response options σ :
  truthy (get_prop response "fallthrough") = true ->
  normalize event response options σ
  = (Thrown (Error "fallthrough is no longer supported. Use matchers instead: https://kit.svelte.dev/docs/routing#advanced-routing-matching"), σ).
Proof.
  intros Hf. destruct (marker_is_object _ Hf) as [Ht Hn].
  unfold normalize. rewrite Ht.
  change (negb ("object" =? "object")) with false. cbv iota.
  unfold bind at 1. rewrite (member_ok _ "fallthrough" σ Ht Hn), Hf. reflexivity.
Qed.

Lemma normalize_null event options σ :
  normalize event VNull options σ
  = (Thrown (TypeError "Cannot read properties of null"), σ).
Proof. reflexivity. Qed.

Lemma normalize_rejected event response options σ :
  well_formed response ->
  body_accepted (content_type_of σ response) (body_of response) = false ->
  normalize event response options σ
  = (Ok (error (("Invalid response from route " +:+ url_pathname event)
                +:+ ": body must be an instance of string, Uint8Array or ReadableStream if content-type is not a supported textual content-type")),
     (σ ++ [headers_of σ response])%list).
Proof.
  intros (Ht & Hn & Hf) Hacc. unfold normalize. rewrite Ht.
  change (negb ("object" =? "object")) with false. cbv iota.
  unfold bind at 1. rewrite (member_ok _ "fallthrough" σ Ht Hn), Hf.
  unfold bind at 1. rewrite own_headers_run.
  unfold bind at 1. rewrite get_fresh.
  fold (content_type_of σ response). fold (body_of response).
  unfold body_accepted in Hacc.
  replace (negb (is_text (content_type_of σ response)) &&
     negb (instanceof_Uint8Array (body_of response)
        || instanceof_ReadableStream (body_of response)
        || is_string (body_of response))) with true
    by (rewrite <- negb_orb, Hacc; reflexivity).
  reflexivity.
Qed.

(** Every result takes one of the four exits above. *)
Lemma result_cases (response : value) :
  typeof response <> "object"
  \/ response = VNull
  \/ truthy (get_prop response "fallthrough") = true
  \/ well_formed response.
Proof.
  destruct (String.eqb_spec (typeof response) "object") as [Ht|Ht]; [|left; exact Ht].
  right. destruct (truthy (get_prop response "fallthrough")) eqn:Hf.
  - right. left. reflexivity.
  - destruct response; try (right; right; repeat split; (assumption || discriminate)).
    left. reflexivity.
Qed.

(** [normalize] leaves the store as it is, or extends it by one instance. *)
Lemma normalize_extends event response options σ o σ' :
  normalize event response options σ = (o, σ') ->
  exists ext, σ' = (σ ++ ext)%list.
Proof.
  intros H.
  destruct (result_cases response) as [Ht | [-> | [Hf | Hw]]].
  - rewrite (normalize_not_object _ _ _ _ Ht) in H. exists []. rewrite app_nil_r. congruence.
  - rewrite normalize_null in H. exists []. rewrite app_nil_r. congruence.
  - rewrite (normalize_fallthrough _ _ _ _ Hf) in H. exists []. rewrite app_nil_r. congruence.
  - destruct (body_accepted (content_type_of σ response) (body_of response)) eqn:Hacc.
    + rewrite (normalize_ok _ _ _ _ Hw Hacc) in H. eexists. injection H as _ <-. reflexivity.
    + rewrite (normalize_rejected _ _ _ _ Hw Hacc) in H. eexists. injection H as _ <-. reflexivity.
Qed.

(** *** Dispatch *)

Lemma render_endpoint_resolved event mod_ options σ handler :
  check_method_names mod_ = None ->
  resolve mod_ (method (request event)) = Some handler ->
  render_endpoint event mod_ options σ
  = (response <- handler event ;; normalize event response options)%js σ.
Proof.
  intros Hc Hr. unfold render_endpoint. rewrite Hc.
  unfold bind at 1. unfold ret at 1. cbv iota beta zeta.
  unfold resolve in Hr. rewrite Hr. reflexivity.
Qed.

Lemma render_endpoint_dispatched event mod_ options σ response σ1 :
  dispatched event mod_ σ response σ1 ->
  render_endpoint event mod_ options σ = normalize event response options σ1.
Proof.
  intros (Hc & handler & Hr & Hh).
  rewrite (render_endpoint_resolved _ _ _ _ _ Hc Hr).
  unfold bind. rewrite Hh. reflexivity.
Qed.

Lemma bodyless_has_spec (s : value) :
  bodyless_has s = true
  <-> exists n, s = VNumber n /\ (n = 101 \/ n = 204 \/ n = 205 \/ n = 304)%Z.
Proof.
  unfold bodyless_has, bodyless_status_codes. split.
  - destruct s; try discriminate. intros H. apply bool_decide_eq_true in H.
    exists n. split; [reflexivity|].
    rewrite !elem_of_union, !elem_of_singleton in H. tauto.
  - intros (n & -> & H). apply bool_decide_eq_true.
    rewrite !elem_of_union, !elem_of_singleton. tauto.
Qed.

Lemma encoded_body_defined options type response :
  encoded_body options type (body_of response) <> VUndefined.
Proof.
  unfold encoded_body, serialize_error, body_of.
  destruct (encodes_json _ _).
  - destruct (instanceof_Error _); discriminate.
  - destruct (get_prop response "body"); discriminate.
Qed.

(** What the engine does when no handler answers the request. *)
Lemma render_endpoint_unresolved event mod_ options σ :
  check_method_names mod_ = None ->
  resolve mod_ (method (request event)) = None ->
  render_endpoint event mod_ options σ
  = (Ok (if truthy_str (Hdr.get "x-sveltekit-load" (request_headers (request event)))
         then {| body := VUndefined; status := VNumber 204; headers := [] |}
         else {| body := VString (method (request event) +:+ " method not allowed");
                 status := VNumber 405;
                 headers :=
                   [("allow",
                     Js.join ", "
                       (List.filter (fun m => defined (mod_ !! m)) ["0"; "1"; "2"; "3"; "4"]
                        ++ (if defined (mod_ !! "GET") || defined (mod_ !! "HEAD")
                            then ["HEAD"] else []))%list)] |}), σ).
Proof.
  intros Hc Hr. unfold render_endpoint. rewrite Hc.
  unfold bind at 1. unfold ret at 1. cbv iota beta zeta.
  unfold resolve in Hr. rewrite Hr. unfold ret.
  change (Js.for_in_keys ["GET"; "POST"; "PUT"; "PATCH"; "DELETE"])
    with ["0"; "1"; "2"; "3"; "4"].
  destruct (defined (mod_ !! "GET") || defined (mod_ !! "HEAD"));
    [reflexivity | rewrite app_nil_r; reflexivity].
Qed.

Lemma headers_of_extends (σ ext : store) response :
  (forall l, get_prop response "headers" = VHeaders l -> is_Some (σ !! l)) ->
  headers_of (σ ++ ext)%list response = headers_of σ response.
Proof.
  intros Hv. unfold headers_of.
  destruct (get_prop response "headers") eqn:E; try reflexivity.
  rewrite lookup_app_l; [reflexivity|].
  apply lookup_lt_is_Some. apply Hv. reflexivity.
Qed.

(** The outcome of [normalize] depends on the store only through the
    entries of the handler's header map. *)
Lemma normalize_outcome event response options (σ τ : store) :
  headers_of σ response = headers_of τ response ->
  fst (normalize event response options σ) = fst (normalize event response options τ).
Proof.
  intros Hh.
  destruct (result_cases response) as [Ht | [-> | [Hf | Hw]]].
  - rewrite !(normalize_not_object _ _ _ _ Ht). reflexivity.
  - rewrite !normalize_null. reflexivity.
  - rewrite !(normalize_fallthrough _ _ _ _ Hf). reflexivity.
  - destruct (body_accepted (content_type_of σ response) (body_of response)) eqn:Hacc.
    + assert (Hacc' := Hacc). unfold content_type_of in Hacc'. rewrite Hh in Hacc'.
      rewrite (normalize_ok _ _ _ _ Hw Hacc), (normalize_ok _ _ _ _ Hw Hacc').
      unfold final_response, final_headers, content_type_of. rewrite Hh. reflexivity.
    + assert (Hacc' := Hacc). unfold content_type_of in Hacc'. rewrite Hh in Hacc'.
      rewrite (normalize_rejected _ _ _ _ Hw Hacc), (normalize_rejected _ _ _ _ Hw Hacc').
      reflexivity.
Qed.

Lemma etag_wanted_spec (nb : value) (h : hlist) :
  etag_wanted nb h = true
  <-> (typeof nb = "string" \/ instanceof_Uint8Array nb = true)
      /\ Hdr.get "etag" h = None
      /\ (forall cc, Hdr.get "cache-control" h = Some cc ->
                     Js.includes cc "no-store" = false /\ Js.includes cc "immutable" = false).
Proof.
  unfold etag_wanted. rewrite !andb_true_iff, orb_true_iff, negb_true_iff.
  rewrite String.eqb_eq, has_get.
  split.
  - intros ((H1 & H2) & H3). split; [exact H1 | split; [exact H2 |]].
    intros cc Hcc. rewrite Hcc in H3. simpl in H3.
    apply orb_true_iff in H3 as [H3|H3].
    + apply negb_true_iff, negb_false_iff, String.eqb_eq in H3. subst cc.
      split; reflexivity.
    + apply negb_true_iff, orb_false_iff in H3. exact H3.
  - intros (H1 & H2 & H3). repeat split; try assumption.
    destruct (Hdr.get "cache-control" h) as [cc|]; [|reflexivity].
    change (default "" (Some cc)) with cc.
    destruct (H3 cc eq_refl) as [-> ->]. apply orb_true_r.
Qed.

Lemma encodes_json_spec (type : option string) (body_ : value) :
  encodes_json type body_ = true
  <-> is_pojo body_ = true
      /\ (absent type \/ exists t, type = Some t /\ Js.startsWith t "application/json" = true).
Proof.
  unfold encodes_json, absent. rewrite andb_true_iff, orb_true_iff, negb_true_iff.
  split; intros [Hp Ht]; (split; [exact Hp|]).
  - destruct type as [t|]; [|left; left; reflexivity].
    destruct Ht as [Ht|Ht].
    + left. right. simpl in Ht. apply negb_false_iff, String.eqb_eq in Ht. congruence.
    + right. exists t. split; [reflexivity | exact Ht].
  - destruct Ht as [[->| ->]|(t & -> & Ht)]; [left; reflexivity | left; reflexivity | right; exact Ht].
Qed.

(** *** Properties of the specification *)

Lemma defined_is_Some {A} (o : option A) : defined o = true <-> is_Some o.
Proof. destruct o; simpl; split; intros H; try discriminate; eauto. destruct H; discriminate. Qed.

Lemma index_keys_not_HEAD (mod_ : Module_) (x : string) :
  In x (List.filter (fun m => defined (mod_ !! m)) ["0"; "1"; "2"; "3"; "4"]) ->
  x <> "HEAD".
Proof.
  intros Hin. apply List.filter_In in Hin as [Hin _].
  simpl in Hin. intuition (subst; discriminate).
Qed.

Lemma includes_char_cons (sep c : ascii) (t : string) :
  Js.includes (String c t) (String sep EmptyString) = false ->
  Ascii.eqb c sep = false /\ Js.includes t (String sep EmptyString) = false.
Proof.
  intros H. change (Js.includes (String c t) (String sep EmptyString))
    with (Js.startsWith (String c t) (String sep EmptyString)
          || Js.includes t (String sep EmptyString)) in H.
  apply orb_false_iff in H as [Hc Ht]. split; [|exact Ht].
  destruct (Ascii.eqb_spec c sep) as [->|_]; [|reflexivity].
  destruct t; simpl in Hc; rewrite Ascii.eqb_refl in Hc; discriminate.
Qed.

Lemma append_empty (s : string) : s +:+ "" = s.
Proof.
  induction s as [|c s IH]; [reflexivity|].
  change (String c (s +:+ "") = String c s). f_equal. exact IH.
Qed.

Lemma join_cons (x : string) (rest : list string) :
  Js.join ", " (x :: rest)
  = x +:+ match rest with
          | [] => EmptyString
          | _ :: _ => ", " +:+ Js.join ", " rest
          end.
Proof. destruct rest; [symmetry; apply append_empty | reflexivity]. Qed.

(** Two comma-free strings, each followed by nothing or by a comma and
    more: when the wholes agree, so do the parts. *)
Lemma comma_free_prefix (a b x y : string) :
  Js.includes a "," = false -> Js.includes b "," = false ->
  (x = "" \/ exists x', x = String "," x') ->
  (y = "" \/ exists y', y = String "," y') ->
  a +:+ x = b +:+ y -> a = b /\ x = y.
Proof.
  revert b. induction a as [|c a IH]; intros b Ha Hb Hx Hy H.
  - destruct b as [|d b]; [split; [reflexivity | exact H]|].
    apply includes_char_cons in Hb as [Hd _].
    change (x = String d (b +:+ y)) in H.
    destruct Hx as [-> | [x' ->]]; [discriminate|].
    injection H as <- _. vm_compute in Hd. discriminate.
  - apply includes_char_cons in Ha as [Hc Ha].
    destruct b as [|d b].
    + change (String c (a +:+ x) = y) in H.
      destruct Hy as [-> | [y' ->]]; [discriminate|].
      injection H as -> _. vm_compute in Hc. discriminate.
    + apply includes_char_cons in Hb as [_ Hb].
      change (String c (a +:+ x) = String d (b +:+ y)) in H.
      injection H as -> H.
      destruct (IH b Ha Hb Hx Hy H) as [-> ->]. split; reflexivity.
Qed.

(** The value of an allow header determines the list it was joined from, as
    long as the names are tokens: properties of the list are properties of
    the header. *)
Lemma allow_list_determined (l1 l2 : list string) :
  Forall allow_token l1 -> Forall allow_token l2 ->
  Js.join ", " l1 = Js.join ", " l2 -> l1 = l2.
Proof.
  intros H1. revert l2. induction H1 as [|a r1 [Hane Ha] Hr1 IH]; intros l2 H2 H.
  - destruct H2 as [|b r2 [Hbne Hb] Hr2]; [reflexivity|].
    rewrite join_cons in H. destruct b; [exact (False_ind _ (Hbne eq_refl)) | discriminate].
  - destruct H2 as [|b r2 [Hbne Hb] Hr2].
    + rewrite join_cons in H. destruct a; [exact (False_ind _ (Hane eq_refl)) | discriminate].
    + rewrite !join_cons in H.
      apply comma_free_prefix in H as [-> Htail]; try assumption.
      * f_equal. apply IH; [exact Hr2|].
        destruct r1 as [|? ?], r2 as [|? ?]; try discriminate; [reflexivity|].
        exact (String.app_inj ", " _ _ Htail).
      * destruct r1; [left; reflexivity | right; eexists; reflexivity].
      * destruct r2; [left; reflexivity | right; eexists; reflexivity].
Qed.

Lemma index_keys_listed (mod_ : Module_) (x : string) :
  In x (List.filter (fun m => defined (mod_ !! m)) ["0"; "1"; "2"; "3"; "4"]) ->
  allow_token x /\ is_Some (mod_ !! x).
Proof.
  intros Hin. apply List.filter_In in Hin as [Hin Hdef].
  split; [|apply defined_is_Some; exact Hdef].
  simpl in Hin. destruct Hin as [<-|[<-|[<-|[<-|[<-|[]]]]]]; split; (discriminate || reflexivity).
Qed.

(** C1, as amended.  A request whose method has no handler in the module
    (and, for HEAD, no GET to fall back on) is answered without calling
    anything.  With the data-fetch marker (an x-sveltekit-load header of
    non-empty value) the response is a 204 without body.  Without it the
    response is a 405 whose body is <METHOD> method not allowed and whose
    allow header joins, with a comma and a space, a list of names with
    these properties: every name is a token (not empty, no comma) and
    is HEAD or a name the module exports; the header determines the list
    (no other list of tokens joins to the same value); no name occurs
    twice; and the list ends with HEAD exactly when the module has GET or
    HEAD.  Which of GET, POST, PUT, PATCH and DELETE the list names is left
    open. *)
Theorem method_not_allowed event mod_ options σ :
  check_method_names mod_ = None ->
  mod_ !! method (request event) = None ->
  (method (request event) = "HEAD" -> mod_ !! "GET" = None) ->
  let marker := Hdr.get "x-sveltekit-load" (request_headers (request event)) in
  (truthy_str marker = true ->
   render_endpoint event mod_ options σ
   = (Ok {| body := VUndefined; status := VNumber 204; headers := [] |}, σ))
  /\ (truthy_str marker = false ->
      exists allowed,
        render_endpoint event mod_ options σ
        = (Ok {| body := VString (method (request event) +:+ " method not allowed");
                 status := VNumber 405;
                 headers := [("allow", Js.join ", " allowed)] |}, σ)
        /\ Forall (fun m => allow_token m /\ (m = "HEAD" \/ is_Some (mod_ !! m))) allowed
        /\ (forall other, Forall allow_token other ->
                          Js.join ", " other = Js.join ", " allowed -> other = allowed)
        /\ List.NoDup allowed
        /\ (last allowed = Some "HEAD"
            <-> is_Some (mod_ !! "GET") \/ is_Some (mod_ !! "HEAD"))).
Proof.
  intros Hc Hm Hget marker.
  assert (Hr : resolve mod_ (method (request event)) = None).
  { unfold resolve. rewrite Hm. simpl.
    destruct (String.eqb_spec (method (request event)) "HEAD") as [E|_];
      [apply Hget; exact E | reflexivity]. }
  rewrite (render_endpoint_unresolved _ _ _ _ Hc Hr). fold marker.
  split; intros Hmark; rewrite Hmark; [reflexivity|].
  pose (allowed :=
          (List.filter (fun m => defined (mod_ !! m)) ["0"; "1"; "2"; "3"; "4"]
           ++ (if defined (mod_ !! "GET") || defined (mod_ !! "HEAD")
               then ["HEAD"] else []))%list).
  cut (Forall (fun m => allow_token m /\ (m = "HEAD" \/ is_Some (mod_ !! m))) allowed
       /\ List.NoDup allowed
       /\ (last allowed = Some "HEAD"
           <-> is_Some (mod_ !! "GET") \/ is_Some (mod_ !! "HEAD"))).
  { intros (Hall & Hnd & Hlast). exists allowed.
    split; [reflexivity|]. split; [exact Hall|]. split; [|split; assumption].
    intros other Hother Heq. apply allow_list_determined; [exact Hother | | exact Heq].
    eapply List.Forall_impl; [|exact Hall]. intros a [Ha _]. exact Ha. }
  subst allowed.
  set (listed := List.filter (fun m => defined (mod_ !! m)) ["0"; "1"; "2"; "3"; "4"]).
  assert (Hnd : List.NoDup listed).
  { apply List.NoDup_filter. repeat constructor; simpl; intuition discriminate. }
  assert (Hlisted : Forall (fun m => allow_token m /\ (m = "HEAD" \/ is_Some (mod_ !! m)))
                      listed).
  { apply List.Forall_forall. intros x Hx.
    destruct (index_keys_listed _ _ Hx) as [Htok Hexp]. split; [exact Htok | right; exact Hexp]. }
  destruct (defined (mod_ !! "GET") || defined (mod_ !! "HEAD")) eqn:Hp.
  - split; [|split].
    + apply Forall_app. split; [exact Hlisted|].
      constructor; [|constructor]. split; [split; [discriminate | reflexivity] | left; reflexivity].
    + apply List.NoDup_app; [exact Hnd | repeat constructor; simpl; tauto |].
      intros a Ha [<-|[]]. exact (index_keys_not_HEAD _ _ Ha eq_refl).
    + rewrite last_snoc. split; [intros _ | reflexivity].
      apply orb_true_iff in Hp. rewrite !defined_is_Some in Hp. exact Hp.
  - rewrite app_nil_r. split; [exact Hlisted|]. split; [exact Hnd|]. split.
    + intros Hl. apply last_Some_elem_of, list_elem_of_In in Hl.
      exfalso. exact (index_keys_not_HEAD _ _ Hl eq_refl).
    + intros H. rewrite <- !defined_is_Some, <- orb_true_iff in H. congruence.
Qed.

Lemma render_endpoint_checked_normalized event mod_ options σ response σ1 :
  dispatched event mod_ σ response σ1 ->
  well_formed response ->
  body_accepted (content_type_of σ1 response) (body_of response) = true ->
  render_endpoint_checked event mod_ options σ
  = match Response_refusal (final_response event options σ1 response) with
    | Some e => (Thrown e, (σ1 ++ [final_headers options σ1 response])%list)
    | None => (Ok (final_response event options σ1 response),
               (σ1 ++ [final_headers options σ1 response])%list)
    end.
Proof.
  intros Hd Hw Hacc. unfold render_endpoint_checked, bind.
  rewrite (render_endpoint_dispatched _ _ _ _ _ _ Hd), (normalize_ok _ _ _ _ Hw Hacc).
  destruct (Response_refusal _); reflexivity.
Qed.

Lemma encoded_body_not_null options type response :
  body_of response <> VNull ->
  encoded_body options type (body_of response) <> VNull.
Proof.
  intros Hb. unfold encoded_body, serialize_error.
  destruct (encodes_json _ _); [destruct (instanceof_Error _); discriminate | exact Hb].
Qed.

Lemma status_in_range (code : Z) :
  (200 <= code <= 599)%Z -> (200 <=? code)%Z && (code <=? 599)%Z = true.
Proof. intros H. apply andb_true_iff. split; apply Z.leb_le; lia. Qed.

(** A status the engine takes for bodyless is read by the constructor as
    the same number. *)
Lemma bodyless_status_code (s : value) :
  bodyless_has s = true ->
  exists n, s = VNumber n /\ status_code s = n
            /\ (n = 101 \/ n = 204 \/ n = 205 \/ n = 304)%Z.
Proof.
  intros H. apply bodyless_has_spec in H as (n & -> & Hn).
  exists n. split; [reflexivity|]. split; [|exact Hn].
  unfold status_code. apply Z.mod_small. lia.
Qed.

(** C2, as amended.  Bodyless enforcement, for a request whose handler
    returned an object without the fallthrough marker that passes the
    body-type check, with the status as the Response constructor reads it
    (a number from 0 to 65535 is read as itself):
    - a status outside 200..599, 101 among them, gives no response: the
      constructor throws a RangeError;
    - with a status within 200..599, the response has no body whenever the
      method is HEAD or the status is 204, 205 or 304, whatever body the
      handler produced;
    - with any other method, and a status within 200..599 that the
      constructor does not read as 204, 205 or 304, the response is built
      with the encoded body, which is never undefined and is null only if
      the handler's body is null;
    - with any other method, and a status that is not the number 204, 205
      or 304 but is read as one of them by the constructor, a body that is
      not null makes the constructor throw a TypeError. *)
Theorem bodyless_enforcement event mod_ options σ response σ1 :
  dispatched event mod_ σ response σ1 ->
  well_formed response ->
  body_accepted (content_type_of σ1 response) (body_of response) = true ->
  let code := status_code (status_of response) in
  let σ' := (σ1 ++ [final_headers options σ1 response])%list in
  (~ (200 <= code <= 599)%Z ->
   exists message,
     render_endpoint_checked event mod_ options σ = (Thrown (RangeError message), σ'))
  /\ ((200 <= code <= 599)%Z ->
      (method (request event) = "HEAD"
       \/ exists n, status_of response = VNumber n /\ (n = 204 \/ n = 205 \/ n = 304)%Z) ->
      exists r,
        render_endpoint_checked event mod_ options σ = (Ok r, σ')
        /\ status r = status_of response
        /\ body r = VUndefined)
  /\ ((200 <= code <= 599)%Z ->
      method (request event) <> "HEAD" ->
      ~ (code = 204 \/ code = 205 \/ code = 304)%Z ->
      exists r,
        render_endpoint_checked event mod_ options σ = (Ok r, σ')
        /\ status r = status_of response
        /\ body r = encoded_body options (content_type_of σ1 response) (body_of response)
        /\ body r <> VUndefined
        /\ (body_of response <> VNull -> body r <> VNull))
  /\ (method (request event) <> "HEAD" ->
      (code = 204 \/ code = 205 \/ code = 304)%Z ->
      ~ (exists n, status_of response = VNumber n /\ (n = 204 \/ n = 205 \/ n = 304)%Z) ->
      body_of response <> VNull ->
      exists message,
        render_endpoint_checked event mod_ options σ = (Thrown (TypeError message), σ')).
Proof.
  intros Hd Hw Hacc. cbv zeta.
  set (σ' := (σ1 ++ [final_headers options σ1 response])%list).
  rewrite (render_endpoint_checked_normalized _ _ _ _ _ _ Hd Hw Hacc). fold σ'.
  unfold Response_refusal. cbn [status body final_response].
  remember (status_code (status_of response)) as code eqn:Hcode.
  assert (Hsup : method (request event) <> "HEAD" ->
                 ~ (exists n, status_of response = VNumber n
                              /\ (n = 204 \/ n = 205 \/ n = 304)%Z) ->
                 (200 <= code <= 599)%Z ->
                 suppressed (method (request event)) (status_of response) = false).
  { intros Hm Hs Hin. unfold suppressed.
    destruct (String.eqb_spec (method (request event)) "HEAD") as [E|_]; [contradiction|].
    destruct (bodyless_has (status_of response)) eqn:Hb; [|reflexivity].
    apply bodyless_status_code in Hb as (n & Hn & Hc & Hv). exfalso.
    destruct Hv as [-> | Hv]; [lia|]. apply Hs. exists n. split; assumption. }
  split; [|split; [|split]].
  - intros Hout. destruct ((200 <=? code)%Z && (code <=? 599)%Z) eqn:E.
    + apply andb_true_iff in E as [E1 E2]. apply Z.leb_le in E1, E2. lia.
    + eexists. reflexivity.
  - intros Hin Hs. rewrite (status_in_range _ Hin).
    assert (E : suppressed (method (request event)) (status_of response) = true).
    { unfold suppressed. destruct Hs as [-> | (n & Hn & Hv)]; [reflexivity|].
      rewrite (proj2 (bodyless_has_spec _)); [apply orb_true_r|].
      exists n. split; [exact Hn | lia]. }
    rewrite E. eexists. split; [reflexivity|]. split; [reflexivity|].
    cbn [body final_response]. rewrite E. reflexivity.
  - intros Hin Hm Hc. rewrite (status_in_range _ Hin).
    assert (E : suppressed (method (request event)) (status_of response) = false).
    { apply Hsup; [exact Hm | | exact Hin]. intros (n & Hn & Hv).
      apply Hc. rewrite Hcode, Hn. unfold status_code.
      rewrite Z.mod_small by lia. exact Hv. }
    assert (Hnb : null_body_status code = false).
    { unfold null_body_status, existsb.
      repeat match goal with
             | |- context [Z.eqb code ?k] => destruct (Z.eqb_spec code k); [lia|]
             end.
      reflexivity. }
    rewrite E, Hnb, andb_false_r. eexists. split; [reflexivity|]. split; [reflexivity|].
    cbn [body final_response]. rewrite E.
    split; [reflexivity|]. split; [apply encoded_body_defined | apply encoded_body_not_null].
  - intros Hm Hc Hs Hb.
    assert (Hin : (200 <= code <= 599)%Z) by lia.
    rewrite (status_in_range _ Hin), (Hsup Hm Hs Hin).
    assert (Hnb : null_body_status code = true)
      by (destruct Hc as [-> | [-> | ->]]; reflexivity).
    rewrite Hnb.
    pose proof (encoded_body_defined options (content_type_of σ1 response) response) as Hu.
    pose proof (encoded_body_not_null options (content_type_of σ1 response) response Hb) as Hn.
    destruct (encoded_body options (content_type_of σ1 response) (body_of response));
      try contradiction; eexists; reflexivity.
Qed.

(** C3, as amended.  A HEAD request to a module that has no HEAD handler
    but a GET handler is answered by calling the GET handler, and the
    response has no body, whatever body the handler returned, whenever the
    handler's result gets past the object, fallthrough and body-type
    checks. *)
Theorem head_falls_back_to_get event mod_ options σ get_handler :
  check_method_names mod_ = None ->
  method (request event) = "HEAD" ->
  mod_ !! "HEAD" = None ->
  mod_ !! "GET" = Some get_handler ->
  render_endpoint event mod_ options σ
  = (response <- get_handler event ;; normalize event response options)%js σ
  /\ forall response σ1,
       get_handler event σ = (Ok response, σ1) ->
       well_formed response ->
       body_accepted (content_type_of σ1 response) (body_of response) = true ->
       exists r σ',
         render_endpoint event mod_ options σ = (Ok r, σ') /\ body r = VUndefined.
Proof.
  intros Hc Hm Hh Hg.
  assert (Hr : resolve mod_ (method (request event)) = Some get_handler).
  { unfold resolve. rewrite Hm, Hh. exact Hg. }
  split; [apply render_endpoint_resolved; assumption|].
  intros response σ1 Hrun Hw Hacc.
  rewrite (render_endpoint_resolved _ _ _ _ _ Hc Hr).
  unfold bind. rewrite Hrun, (normalize_ok _ _ _ _ Hw Hacc).
  eexists _, _. split; [reflexivity|]. simpl. unfold suppressed. rewrite Hm. reflexivity.
Qed.

(** C4, as amended.  The encoding decision, for a handler result that gets
    past the object, fallthrough and body-type checks.  A JSON-like body
    (plain object, array or error object) with a content-type that is
    absent, empty, or starts with application/json: the content-type header
    becomes application/json; charset=utf-8 and the encoded body is the JSON
    encoding of the value, an error value going through the error serialiser
    first.  Every other body (one that is not JSON-like, such as a string,
    bytes or a stream, or any body under a non-empty content-type that does
    not start with application/json): the body passes through unchanged and
    so does the content-type.  The response carries the encoded body unless
    it is suppressed for HEAD or a bodyless status. *)
Theorem json_body_encoding event mod_ options σ response σ1 :
  dispatched event mod_ σ response σ1 ->
  well_formed response ->
  let type := content_type_of σ1 response in
  let body_ := body_of response in
  body_accepted type body_ = true ->
  exists r σ',
    render_endpoint event mod_ options σ = (Ok r, σ')
    /\ (is_pojo body_ = true ->
        absent type \/ (exists t, type = Some t /\ Js.startsWith t "application/json" = true) ->
        Hdr.get "content-type" (headers r) = Some "application/json; charset=utf-8"
        /\ body r = if suppressed (method (request event)) (status r) then VUndefined
                    else VString (JSON_stringify
                                    (if instanceof_Error body_
                                     then ErrorSerializer body_ (get_stack options)
                                     else body_)))
    /\ (is_pojo body_ = false
        \/ (~ absent type /\ forall t, type = Some t -> Js.startsWith t "application/json" = false) ->
        Hdr.get "content-type" (headers r) = type
        /\ body r = if suppressed (method (request event)) (status r) then VUndefined
                    else body_).
Proof.
  intros Hd Hw type body_ Hacc.
  rewrite (render_endpoint_dispatched _ _ _ _ _ _ Hd), (normalize_ok _ _ _ _ Hw Hacc).
  eexists _, _. split; [reflexivity|].
  unfold final_response, final_headers, encoded_headers, encoded_body, serialize_error.
  fold type. fold body_. simpl.
  assert (Hetag : forall nb h, Hdr.get "content-type"
              (if etag_wanted nb h then Hdr.set "etag" (etag_of nb) h else h)
            = Hdr.get "content-type" h).
  { intros nb h. destruct (etag_wanted nb h); [|reflexivity].
    apply get_set_other. reflexivity. }
  rewrite Hetag. split.
  - intros Hp Ht.
    assert (E : encodes_json type body_ = true) by (apply encodes_json_spec; split; assumption).
    rewrite E. split; [apply get_set_same|].
    destruct (suppressed _ _); [reflexivity|].
    destruct (instanceof_Error body_); reflexivity.
  - intros Hn.
    assert (E : encodes_json type body_ = false).
    { destruct (encodes_json type body_) eqn:E; [|reflexivity].
      apply encodes_json_spec in E as [Hp Ht].
      destruct Hn as [Hn | [Hna Hns]]; [congruence|].
      destruct Ht as [Ht | (t & Ht & Hs)]; [contradiction|].
      rewrite (Hns t Ht) in Hs. discriminate. }
    rewrite E. split; reflexivity.
Qed.

(** C5.  Validator injection, for every normalised response.  With [h0] the
    header entries the handler supplied and [nb] the encoded body: when
    [nb] is a string or a byte array, [h0] has no etag, and the
    cache-control of [h0] is absent or names neither no-store nor
    immutable, the response has the etag header, and its value is the hash
    of [nb] between double quotes; in every other case no etag is added
    (the etag header of the response is whatever [h0] had).  In particular
    a cache-control naming no-store leaves a response without etag when the
    handler set none. *)
Theorem etag_injection event mod_ options σ response σ1 :
  dispatched event mod_ σ response σ1 ->
  well_formed response ->
  let h0 := headers_of σ1 response in
  let nb := encoded_body options (content_type_of σ1 response) (body_of response) in
  let wanted :=
    (typeof nb = "string" \/ instanceof_Uint8Array nb = true)
    /\ Hdr.get "etag" h0 = None
    /\ (forall cc, Hdr.get "cache-control" h0 = Some cc ->
                   Js.includes cc "no-store" = false
                   /\ Js.includes cc "immutable" = false) in
  body_accepted (content_type_of σ1 response) (body_of response) = true ->
  exists r σ',
    render_endpoint event mod_ options σ = (Ok r, σ')
    /\ (wanted -> Hdr.get "etag" (headers r) = Some (dquote +:+ hash nb +:+ dquote))
    /\ (~ wanted -> Hdr.get "etag" (headers r) = Hdr.get "etag" h0)
    /\ (forall cc, Hdr.get "cache-control" h0 = Some cc ->
                   Js.includes cc "no-store" = true ->
                   Hdr.get "etag" h0 = None ->
                   Hdr.get "etag" (headers r) = None).
Proof.
  intros Hd Hw h0 nb wanted Hacc.
  rewrite (render_endpoint_dispatched _ _ _ _ _ _ Hd), (normalize_ok _ _ _ _ Hw Hacc).
  eexists _, _. split; [reflexivity|].
  unfold final_response, final_headers. simpl. fold h0. fold nb.
  set (h := encoded_headers (content_type_of σ1 response) (body_of response) h0).
  assert (Hetag : Hdr.get "etag" h = Hdr.get "etag" h0).
  { unfold h, encoded_headers. destruct (encodes_json _ _); [|reflexivity].
    apply get_set_other. reflexivity. }
  assert (Hcc : Hdr.get "cache-control" h = Hdr.get "cache-control" h0).
  { unfold h, encoded_headers. destruct (encodes_json _ _); [|reflexivity].
    apply get_set_other. reflexivity. }
  assert (Hiff : etag_wanted nb h = true <-> wanted).
  { rewrite etag_wanted_spec, Hetag, Hcc. reflexivity. }
  split; [|split].
  - intros Hwanted. apply Hiff in Hwanted. rewrite Hwanted. apply get_set_same.
  - intros Hnot. destruct (etag_wanted nb h) eqn:E.
    + exfalso. apply Hnot, Hiff. reflexivity.
    + exact Hetag.
  - intros cc Hc Hstore Hnone. destruct (etag_wanted nb h) eqn:E.
    + destruct (proj1 Hiff eq_refl) as (_ & _ & Hcache).
      destruct (Hcache cc Hc) as [E1 _]. congruence.
    + rewrite Hetag. exact Hnone.
Qed.

(** C6.  The body check, for a dispatched request whose result is an object
    without the fallthrough marker.  When the content-type is classified
    as not textual and the body is neither a string, nor a byte array, nor
    a stream, the response is the diagnostic 500 whose text names the
    expected shapes.  When the content-type is textual, and an absent one
    is, the body may have any shape: the response is the normalised one,
    with the handler's status and the encoded body. *)
Theorem body_type_check event mod_ options σ response σ1 :
  dispatched event mod_ σ response σ1 ->
  well_formed response ->
  let type := content_type_of σ1 response in
  let body_ := body_of response in
  (is_text type = false ->
   instanceof_Uint8Array body_ = false ->
   instanceof_ReadableStream body_ = false ->
   is_string body_ = false ->
   exists σ',
     render_endpoint event mod_ options σ
     = (Ok {| body := VString (("Invalid response from route " +:+ url_pathname event)
                               +:+ ": body must be an instance of string, Uint8Array or ReadableStream if content-type is not a supported textual content-type");
              status := VNumber 500;
              headers := [] |}, σ'))
  /\ (is_text type = true ->
      exists r σ',
        render_endpoint event mod_ options σ = (Ok r, σ')
        /\ status r = status_of response
        /\ body r = if suppressed (method (request event)) (status r) then VUndefined
                    else encoded_body options type body_)
  /\ is_text None = true.
Proof.
  intros Hd Hw type body_.
  rewrite (render_endpoint_dispatched _ _ _ _ _ _ Hd).
  split; [|split; [|reflexivity]].
  - intros Ht Hu Hs Hstr.
    assert (Hacc : body_accepted type body_ = false).
    { unfold body_accepted. rewrite Ht, Hu, Hs, Hstr. reflexivity. }
    rewrite (normalize_rejected _ _ _ _ Hw Hacc). eexists. reflexivity.
  - intros Ht.
    assert (Hacc : body_accepted type body_ = true).
    { unfold body_accepted. rewrite Ht. reflexivity. }
    rewrite (normalize_ok _ _ _ _ Hw Hacc). eexists _, _.
    split; [reflexivity|]. split; reflexivity.
Qed.

(** X18.  When the handler completes with a value whose [typeof] is not
    object (a string, number, boolean, undefined or function), the
    response is a 500 whose body is exactly
    Invalid response from route <pathname>: expected an object, got <typeof>;
    nothing else runs: the response has no header and the store is the one
    the handler left. *)
Theorem invalid_response_shape event mod_ options σ response σ1 :
  dispatched event mod_ σ response σ1 ->
  typeof response <> "object" ->
  render_endpoint event mod_ options σ
  = (Ok {| body := VString (("Invalid response from route " +:+ url_pathname event)
                            +:+ ": expected an object, got " +:+ typeof response);
           status := VNumber 500;
           headers := [] |}, σ1).
Proof.
  intros Hd Ht.
  rewrite (render_endpoint_dispatched _ _ _ _ _ _ Hd).
  apply normalize_not_object. exact Ht.
Qed.

(** C8.  When the handler's result carries the fallthrough marker, dispatch
    throws the error that says fallthrough is no longer supported; it does
    not return a response of any status. *)
Theorem fallthrough_is_fatal event mod_ options σ response σ1 :
  dispatched event mod_ σ response σ1 ->
  truthy (get_prop response "fallthrough") = true ->
  render_endpoint event mod_ options σ
  = (Thrown (Error "fallthrough is no longer supported. Use matchers instead: https://kit.svelte.dev/docs/routing#advanced-routing-matching"), σ1)
  /\ forall r σ', render_endpoint event mod_ options σ <> (Ok r, σ').
Proof.
  intros Hd Hf.
  rewrite (render_endpoint_dispatched _ _ _ _ _ _ Hd), (normalize_fallthrough _ _ _ _ Hf).
  split; [reflexivity | discriminate].
Qed.

(** C9.  Determinism.  Fix the request and what the handler answers it
    with (the same outcome in every store, leaving the store alone, and a
    header map, if the result carries one, that exists).  Dispatching the
    request, and dispatching it again in the store the first run left,
    gives the same outcome: the same status, header entries (the etag
    among them) and body, or the same exception. *)
Theorem normalization_deterministic event mod_ options σ (answer : outcome value) :
  (forall handler, resolve mod_ (method (request event)) = Some handler ->
                   forall τ, handler event τ = (answer, τ)) ->
  (forall response l, answer = Ok response ->
                      get_prop response "headers" = VHeaders l -> is_Some (σ !! l)) ->
  forall o1 σ1 o2 σ2,
    render_endpoint event mod_ options σ = (o1, σ1) ->
    render_endpoint event mod_ options σ1 = (o2, σ2) ->
    o1 = o2.
Proof.
  intros Hfix Hlive o1 σ1 o2 σ2 H1 H2.
  destruct (check_method_names mod_) as [e|] eqn:Hc.
  { unfold render_endpoint in H1, H2. rewrite Hc in H1, H2.
    unfold bind, throw in H1, H2. congruence. }
  destruct (resolve mod_ (method (request event))) as [handler|] eqn:Hr.
  - rewrite (render_endpoint_resolved _ _ _ _ _ Hc Hr) in H1.
    rewrite (render_endpoint_resolved _ _ _ _ _ Hc Hr) in H2.
    unfold bind in H1, H2. rewrite (Hfix handler eq_refl) in H1, H2.
    destruct answer as [response|e]; [|congruence].
    destruct (normalize_extends _ _ _ _ _ _ H1) as [ext ->].
    pose proof (normalize_outcome event response options σ (σ ++ ext)%list) as Ho.
    rewrite H1, H2 in Ho. simpl in Ho. apply Ho. symmetry.
    apply headers_of_extends. intros l Hl. exact (Hlive response l eq_refl Hl).
  - rewrite (render_endpoint_unresolved _ _ _ _ Hc Hr) in H1.
    rewrite (render_endpoint_unresolved _ _ _ _ Hc Hr) in H2. congruence.
Qed.

(** C10.  Frame.  Dispatch does not write to any header map that exists
    when the handler returns: each one holds afterwards exactly the
    entries it held then.  In particular the header map a handler result
    carries is copied, and the engine's writes of content-type and etag go
    to the copy. *)
Theorem handler_headers_untouched event mod_ options σ response σ1 o σ' :
  dispatched event mod_ σ response σ1 ->
  render_endpoint event mod_ options σ = (o, σ') ->
  forall l entries, σ1 !! l = Some entries -> σ' !! l = Some entries.
Proof.
  intros Hd Hrun l entries Hl.
  rewrite (render_endpoint_dispatched _ _ _ _ _ _ Hd) in Hrun.
  destruct (normalize_extends _ _ _ _ _ _ Hrun) as [ext ->].
  rewrite lookup_app_l; [exact Hl|].
  apply lookup_lt_is_Some. eauto.
Qed.

(** *** Further properties of [render_endpoint] *)

(** X2.  The allow header of a 405, for a module that exports none of the
    numerals 0 to 4 (no module written as a set of handlers does): it is
    HEAD when the module has GET or HEAD and empty otherwise; GET, POST,
    PUT, PATCH and DELETE are never named, whichever of them the module
    exports. *)
Theorem allow_header_is_head_or_empty event mod_ options σ :
  check_method_names mod_ = None ->
  mod_ !! method (request event) = None ->
  (method (request event) = "HEAD" -> mod_ !! "GET" = None) ->
  truthy_str (Hdr.get "x-sveltekit-load" (request_headers (request event))) = false ->
  (forall k, In k ["0"; "1"; "2"; "3"; "4"] -> mod_ !! k = None) ->
  render_endpoint event mod_ options σ
  = (Ok {| body := VString (method (request event) +:+ " method not allowed");
           status := VNumber 405;
           headers := [("allow",
                        if defined (mod_ !! "GET") || defined (mod_ !! "HEAD")
                        then "HEAD" else EmptyString)] |}, σ).
Proof.
  intros Hc Hm Hget Hmark Hkeys.
  assert (Hr : resolve mod_ (method (request event)) = None).
  { unfold resolve. rewrite Hm. simpl.
    destruct (String.eqb_spec (method (request event)) "HEAD") as [E|_];
      [apply Hget; exact E | reflexivity]. }
  rewrite (render_endpoint_unresolved _ _ _ _ Hc Hr), Hmark.
  assert (Hnone : List.filter (fun m => defined (mod_ !! m)) ["0"; "1"; "2"; "3"; "4"] = []).
  { simpl. rewrite !Hkeys by (simpl; tauto). reflexivity. }
  rewrite Hnone. destruct (defined (mod_ !! "GET") || defined (mod_ !! "HEAD")); reflexivity.
Qed.

(** X3.  An exception thrown by the handler is not caught: dispatch throws
    the same exception and leaves the store as the handler left it. *)
Theorem handler_exception_propagates event mod_ options σ
    (handler : RequestHandler) e σ1 :
  check_method_names mod_ = None ->
  resolve mod_ (method (request event)) = Some handler ->
  handler event σ = (Thrown e, σ1) ->
  render_endpoint event mod_ options σ = (Thrown e, σ1).
Proof.
  intros Hc Hr Hh. rewrite (render_endpoint_resolved _ _ _ _ _ Hc Hr).
  unfold bind. rewrite Hh. reflexivity.
Qed.

(** X4.  A handler that returns null gets past the object check (the type
    of null is object) and makes dispatch throw a TypeError at the read of
    the fallthrough property: there is no response, and in particular not
    the diagnostic 500. *)
Theorem null_result_throws event mod_ options σ σ1 :
  dispatched event mod_ σ VNull σ1 ->
  exists message,
    render_endpoint event mod_ options σ = (Thrown (TypeError message), σ1).
Proof.
  intros Hd. rewrite (render_endpoint_dispatched _ _ _ _ _ _ Hd), normalize_null.
  eexists. reflexivity.
Qed.

(** X5.  A handler exported under the request's own method is the one that
    is called; the GET fallback never replaces a HEAD handler. *)
Theorem exact_handler_invoked event mod_ options σ (handler : RequestHandler) :
  check_method_names mod_ = None ->
  mod_ !! method (request event) = Some handler ->
  render_endpoint event mod_ options σ
  = (response <- handler event ;; normalize event response options)%js σ.
Proof.
  intros Hc Hm. apply render_endpoint_resolved; [exact Hc|].
  unfold resolve. rewrite Hm. reflexivity.
Qed.

(** X6.  HEAD mirrors GET.  When a module has GET but no HEAD and the GET
    handler answers both requests alike, the response to HEAD has the status
    and the header entries (content-type and etag among them) of the
    response to GET, and the store ends up the same. *)
Theorem head_mirrors_get event_get event_head mod_ options σ
    (handler : RequestHandler) response σ1 r σ' :
  check_method_names mod_ = None ->
  method (request event_get) = "GET" ->
  method (request event_head) = "HEAD" ->
  mod_ !! "HEAD" = None ->
  mod_ !! "GET" = Some handler ->
  handler event_get σ = (Ok response, σ1) ->
  handler event_head σ = (Ok response, σ1) ->
  render_endpoint event_get mod_ options σ = (Ok r, σ') ->
  exists r',
    render_endpoint event_head mod_ options σ = (Ok r', σ')
    /\ status r' = status r /\ headers r' = headers r.
Proof.
  intros Hc Hg Hh Hnone Hsome Hrun_get Hrun_head Hget.
  assert (Hd_get : dispatched event_get mod_ σ response σ1).
  { split; [exact Hc|]. exists handler. split; [|exact Hrun_get].
    unfold resolve. rewrite Hg, Hsome. reflexivity. }
  assert (Hd_head : dispatched event_head mod_ σ response σ1).
  { split; [exact Hc|]. exists handler. split; [|exact Hrun_head].
    unfold resolve. rewrite Hh, Hnone. exact Hsome. }
  rewrite (render_endpoint_dispatched _ _ _ _ _ _ Hd_get) in Hget.
  rewrite (render_endpoint_dispatched _ _ _ _ _ _ Hd_head).
  destruct (result_cases response) as [Ht | [-> | [Hf | Hw]]].
  - rewrite (normalize_not_object _ _ _ _ Ht) in Hget.
    rewrite (normalize_not_object _ _ _ _ Ht).
    injection Hget as <- <-. eexists. split; [reflexivity|]. split; reflexivity.
  - rewrite normalize_null in Hget. discriminate.
  - rewrite (normalize_fallthrough _ _ _ _ Hf) in Hget. discriminate.
  - destruct (body_accepted (content_type_of σ1 response) (body_of response)) eqn:Hacc.
    + rewrite (normalize_ok _ _ _ _ Hw Hacc) in Hget.
      rewrite (normalize_ok _ _ _ _ Hw Hacc).
      injection Hget as <- <-. eexists. split; [reflexivity|]. split; reflexivity.
    + rewrite (normalize_rejected _ _ _ _ Hw Hacc) in Hget.
      rewrite (normalize_rejected _ _ _ _ Hw Hacc).
      injection Hget as <- <-. eexists. split; [reflexivity|]. split; reflexivity.
Qed.

(** X7.  A result without a body (for instance the empty object) and without
    a content-type is answered as the empty JSON object: the content-type
    becomes application/json; charset=utf-8 and the response carries the
    JSON encoding of the empty object, unless the body is suppressed. *)
Theorem missing_body_is_empty_object event mod_ options σ response σ1 :
  dispatched event mod_ σ response σ1 ->
  well_formed response ->
  get_prop response "body" = VUndefined ->
  absent (content_type_of σ1 response) ->
  exists r σ',
    render_endpoint event mod_ options σ = (Ok r, σ')
    /\ status r = status_of response
    /\ Hdr.get "content-type" (headers r) = Some "application/json; charset=utf-8"
    /\ body r = if suppressed (method (request event)) (status r) then VUndefined
                else VString (JSON_stringify (VObject [])).
Proof.
  intros Hd Hw Hb Habs.
  assert (Hbody : body_of response = VObject []) by (unfold body_of; rewrite Hb; reflexivity).
  assert (Htext : is_text (content_type_of σ1 response) = true).
  { destruct Habs as [-> | ->]; reflexivity. }
  assert (Hacc : body_accepted (content_type_of σ1 response) (body_of response) = true).
  { unfold body_accepted. rewrite Htext. reflexivity. }
  assert (Henc : encodes_json (content_type_of σ1 response) (body_of response) = true).
  { apply encodes_json_spec. rewrite Hbody. split; [reflexivity | left; exact Habs]. }
  rewrite (render_endpoint_dispatched _ _ _ _ _ _ Hd), (normalize_ok _ _ _ _ Hw Hacc).
  eexists _, _. split; [reflexivity|]. split; [reflexivity|].
  unfold final_response, final_headers, encoded_headers, encoded_body. simpl.
  rewrite Henc, Hbody. split.
  - destruct (etag_wanted _ _); [rewrite get_set_other by reflexivity|]; apply get_set_same.
  - reflexivity.
Qed.

(** X8.  The engine writes no header but content-type and etag: under every
    other name the normalised response holds exactly the values the handler
    supplied, in the handler's order. *)
Theorem other_headers_pass_through event mod_ options σ response σ1 name :
  dispatched event mod_ σ response σ1 ->
  well_formed response ->
  body_accepted (content_type_of σ1 response) (body_of response) = true ->
  Hdr.same_name "content-type" name = false ->
  Hdr.same_name "etag" name = false ->
  exists r σ',
    render_endpoint event mod_ options σ = (Ok r, σ')
    /\ Hdr.values name (headers r) = Hdr.values name (headers_of σ1 response).
Proof.
  intros Hd Hw Hacc Hct Het.
  rewrite (render_endpoint_dispatched _ _ _ _ _ _ Hd), (normalize_ok _ _ _ _ Hw Hacc).
  eexists _, _. split; [reflexivity|].
  unfold final_response, final_headers, encoded_headers. simpl.
  destruct (etag_wanted _ _); [rewrite (values_set_other _ _ _ _ Het)|];
    (destruct (encodes_json _ _); [apply (values_set_other _ _ _ _ Hct) | reflexivity]).
Qed.

(** X9.  When the body is JSON-encoded the response has exactly one
    content-type value, the engine's, whatever the handler supplied under
    that name: several values, or a name in another case. *)
Theorem single_content_type_after_encoding event mod_ options σ response σ1 :
  dispatched event mod_ σ response σ1 ->
  well_formed response ->
  body_accepted (content_type_of σ1 response) (body_of response) = true ->
  is_pojo (body_of response) = true ->
  absent (content_type_of σ1 response)
  \/ (exists t, content_type_of σ1 response = Some t
                /\ Js.startsWith t "application/json" = true) ->
  exists r σ',
    render_endpoint event mod_ options σ = (Ok r, σ')
    /\ Hdr.values "content-type" (headers r) = ["application/json; charset=utf-8"].
Proof.
  intros Hd Hw Hacc Hp Ht.
  assert (Henc : encodes_json (content_type_of σ1 response) (body_of response) = true)
    by (apply encodes_json_spec; split; assumption).
  rewrite (render_endpoint_dispatched _ _ _ _ _ _ Hd), (normalize_ok _ _ _ _ Hw Hacc).
  eexists _, _. split; [reflexivity|].
  unfold final_response, final_headers, encoded_headers. simpl. rewrite Henc.
  destruct (etag_wanted _ _); [rewrite values_set_other by reflexivity|];
    apply values_set_same.
Qed.

(** X10.  A body that is a string, a byte array or a stream is never turned
    down by the body check and never re-encoded, whatever the content-type:
    the response has the handler's status and content-type and carries the
    body as it is, unless it is suppressed. *)
Theorem transport_body_passes event mod_ options σ response σ1 :
  dispatched event mod_ σ response σ1 ->
  well_formed response ->
  typeof (body_of response) = "string"
  \/ instanceof_Uint8Array (body_of response) = true
  \/ instanceof_ReadableStream (body_of response) = true ->
  exists r σ',
    render_endpoint event mod_ options σ = (Ok r, σ')
    /\ status r = status_of response
    /\ Hdr.get "content-type" (headers r) = content_type_of σ1 response
    /\ body r = if suppressed (method (request event)) (status r) then VUndefined
                else body_of response.
Proof.
  intros Hd Hw Hkind.
  assert (Hacc : body_accepted (content_type_of σ1 response) (body_of response) = true).
  { unfold body_accepted, is_string.
    destruct Hkind as [-> | [-> | ->]]; simpl; rewrite ?orb_true_r; reflexivity. }
  assert (Hp : is_pojo (body_of response) = false).
  { destruct (body_of response); simpl in *; try reflexivity;
      destruct Hkind as [H | [H | H]]; discriminate. }
  assert (Henc : encodes_json (content_type_of σ1 response) (body_of response) = false).
  { unfold encodes_json. rewrite Hp. reflexivity. }
  rewrite (render_endpoint_dispatched _ _ _ _ _ _ Hd), (normalize_ok _ _ _ _ Hw Hacc).
  eexists _, _. split; [reflexivity|]. split; [reflexivity|].
  unfold final_response, final_headers, encoded_headers, encoded_body. simpl.
  rewrite Henc. split; [|reflexivity].
  destruct (etag_wanted _ _); [apply get_set_other|]; reflexivity.
Qed.

(** *** Content-type classification *)

Lemma startsWith_spec (s p : string) :
  Js.startsWith s p = true <-> exists rest, s = p +:+ rest.
Proof.
  revert s. induction p as [|a p IH]; intros s; simpl.
  - split; [intros _; exists s; reflexivity | intros _; destruct s; reflexivity].
  - destruct s as [|b s]; simpl; [split; [discriminate | intros [rest H]; discriminate]|].
    rewrite andb_true_iff, IH. split.
    + intros [Hab [rest ->]]. apply Ascii.eqb_eq in Hab. subst b. exists rest. reflexivity.
    + intros [rest H]. injection H as -> ->. split; [apply Ascii.eqb_refl | exists rest; reflexivity].
Qed.

Lemma endsWith_spec (s p : string) :
  Js.endsWith s p = true <-> exists front, s = front +:+ p.
Proof.
  assert (Hunfold : forall s, Js.endsWith s p
            = String.eqb s p
              || match s with EmptyString => false | String _ r => Js.endsWith r p end)
    by (intros [|? ?]; reflexivity).
  induction s as [|c s IH]; rewrite Hunfold, orb_true_iff, String.eqb_eq.
  - split.
    + intros [<- | H]; [exists EmptyString; reflexivity | discriminate].
    + intros [front H]. left. destruct front; simpl in H; [exact H | discriminate].
  - rewrite IH. split.
    + intros [<- | [front ->]]; [exists EmptyString | exists (String c front)]; reflexivity.
    + intros [front H]. destruct front as [|d front]; simpl in H.
      * left. exact H.
      * injection H as _ ->. right. exists front. reflexivity.
Qed.

Lemma lower_keeps_separator (c : ascii) :
  Ascii.eqb (Js.lower_ascii c) ";" = Ascii.eqb c ";".
Proof. destruct c as [[] [] [] [] [] [] [] []]; reflexivity. Qed.

Lemma lower_split_head (s : string) :
  Js.toLowerCase (Js.split_head ";" s) = Js.split_head ";" (Js.toLowerCase s).
Proof.
  induction s as [|c s IH]; simpl; [reflexivity|].
  rewrite lower_keeps_separator. destruct (Ascii.eqb c ";"); simpl; [reflexivity|].
  rewrite IH. reflexivity.
Qed.

Lemma no_separator_cons (c : ascii) (t : string) :
  Js.includes (String c t) ";" = false ->
  Ascii.eqb c ";" = false /\ Js.includes t ";" = false.
Proof.
  intros H. change (Js.includes (String c t) ";")
    with (Js.startsWith (String c t) ";" || Js.includes t ";") in H.
  apply orb_false_iff in H as [Hc Ht]. split; [|exact Ht].
  destruct (Ascii.eqb_spec c ";") as [->|_]; [|reflexivity].
  destruct t; discriminate.
Qed.

Lemma split_head_before (t rest : string) :
  Js.includes t ";" = false -> Js.split_head ";" (t +:+ String ";" rest) = t.
Proof.
  induction t as [|c t IH]; intros H; [reflexivity|].
  apply no_separator_cons in H as [Hc Ht]. simpl. rewrite Hc, (IH Ht). reflexivity.
Qed.

Lemma split_head_id (t : string) :
  Js.includes t ";" = false -> Js.split_head ";" t = t.
Proof.
  induction t as [|c t IH]; intros H; [reflexivity|].
  apply no_separator_cons in H as [Hc Ht]. simpl. rewrite Hc, (IH Ht). reflexivity.
Qed.

(** [is_text] of a string, as a function of its lower-case form. *)
Lemma is_text_lower (s : string) :
  is_text (Some s)
  = if String.eqb (Js.toLowerCase s) "" then true
    else Js.startsWith (Js.split_head ";" (Js.toLowerCase s)) "text/"
         || Js.endsWith (Js.split_head ";" (Js.toLowerCase s)) "+xml"
         || bool_decide (Js.split_head ";" (Js.toLowerCase s) ∈ text_types).
Proof.
  unfold is_text. destruct s as [|c s]; [reflexivity|].
  change (default "" (Some (String c s))) with (String c s).
  rewrite lower_split_head. reflexivity.
Qed.

(** X11.  The classification looks at the media type only: what follows the
    first semicolon does not matter.  The media type has to be there: a
    content-type that starts with the semicolon is not textual, although the
    empty content-type is. *)
Theorem is_text_ignores_parameters (t params : string) :
  t <> "" ->
  Js.includes t ";" = false ->
  is_text (Some (t +:+ ";" +:+ params)) = is_text (Some t)
  /\ is_text (Some (";" +:+ params)) = false
  /\ is_text (Some "") = true.
Proof.
  intros Hne Hsep. split; [|split; reflexivity].
  unfold is_text. destruct t as [|c t]; [contradiction|].
  change (default "" (Some ?x)) with x.
  change (String c t +:+ ";" +:+ params) with (String c t +:+ String ";" params).
  rewrite (split_head_before _ params Hsep), (split_head_id _ Hsep). reflexivity.
Qed.

(** X12.  The classification does not depend on the case of the letters. *)
Theorem is_text_case_insensitive (a b : string) :
  Js.toLowerCase a = Js.toLowerCase b ->
  is_text (Some a) = is_text (Some b).
Proof. intros H. rewrite !is_text_lower, H. reflexivity. Qed.

(** X13.  Which content-types are textual: the empty one, and those whose
    media type (the part before the first semicolon, in lower case) starts
    with text/, ends with +xml, or is one of application/xml,
    application/json, application/x-www-form-urlencoded and
    multipart/form-data.  No other is. *)
Theorem is_text_spec (s : string) :
  let type := Js.toLowerCase (Js.split_head ";" s) in
  is_text (Some s) = true
  <-> s = ""
      \/ (exists rest, type = "text/" +:+ rest)
      \/ (exists front, type = front +:+ "+xml")
      \/ type = "application/xml" \/ type = "application/json"
      \/ type = "application/x-www-form-urlencoded" \/ type = "multipart/form-data".
Proof.
  intros type. unfold is_text. destruct s as [|c s].
  - split; [left; reflexivity | reflexivity].
  - change (default "" (Some (String c s))) with (String c s). fold type.
    change (negb (truthy_str (Some (String c s)))) with false. cbv iota.
    rewrite !orb_true_iff, startsWith_spec, endsWith_spec, bool_decide_eq_true.
    unfold text_types. rewrite !elem_of_union, !elem_of_singleton.
    split.
    + intros [[H | H] | H]; tauto.
    + intros [H | H]; [discriminate | tauto].
Qed.


End Engine.

(** ** The engine at work *)

Local Abbreviation run :=
  (render_endpoint Sample.check_method_names Sample.hash Sample.json_encode
     bool Sample.error_object).

Local Abbreviation run_checked :=
  (render_endpoint_checked Sample.check_method_names Sample.hash Sample.json_encode
     bool Sample.error_object Sample.to_integer).

Local Ltac dispatched_by h :=
  split; [reflexivity | exists h; split; reflexivity].

Local Ltac well_formed_now :=
  split; [reflexivity | split; [discriminate | reflexivity]].

(** A module that exports POST only, asked with GET and without the
    data-fetch marker: the response is a 405 with the expected text, and its
    allow header is empty; it does not name POST.  The loop that collects the
    allowed methods runs over the indices of the method list, not over the
    method names. *)
Theorem allow_header_post_only :
  run (Sample.event "GET" []) Sample.post_only Sample.options []
  = (Ok {| body := VString "GET method not allowed";
           status := VNumber 405;
           headers := [("allow", EmptyString)] |}, []).
Proof. vm_compute. reflexivity. Qed.

(** C1, as stated, fails: a module that exports HEAD only, asked with POST,
    answers with an allow header that names HEAD, although the module has no
    GET. *)
Lemma allow_names_head_without_get :
  Sample.head_only !! "POST" = None
  /\ Sample.head_only !! "GET" = None
  /\ run (Sample.event "POST" []) Sample.head_only Sample.options []
     = (Ok {| body := VString "POST method not allowed";
              status := VNumber 405;
              headers := [("allow", "HEAD")] |}, []).
Proof. repeat split; vm_compute; reflexivity. Qed.

Lemma method_not_allowed_witness :
  run (Sample.event "GET" [("x-sveltekit-load", "true")]) Sample.post_only Sample.options []
  = (Ok {| body := VUndefined; status := VNumber 204; headers := [] |}, [])
  /\ exists allowed,
       run (Sample.event "GET" []) Sample.post_only Sample.options []
       = (Ok {| body := VString "GET method not allowed";
                status := VNumber 405;
                headers := [("allow", Js.join ", " allowed)] |}, [])
       /\ Forall (fun m => allow_token m
                           /\ (m = "HEAD" \/ is_Some (Sample.post_only !! m))) allowed
       /\ (forall other, Forall allow_token other ->
                         Js.join ", " other = Js.join ", " allowed -> other = allowed)
       /\ List.NoDup allowed
       /\ (last allowed = Some "HEAD"
           <-> is_Some (Sample.post_only !! "GET") \/ is_Some (Sample.post_only !! "HEAD")).
Proof.
  split.
  - apply (method_not_allowed Sample.check_method_names Sample.hash Sample.json_encode
             bool Sample.error_object
             (Sample.event "GET" [("x-sveltekit-load", "true")]) Sample.post_only
             Sample.options [] eq_refl eq_refl); [discriminate | reflexivity].
  - apply (method_not_allowed Sample.check_method_names Sample.hash Sample.json_encode
             bool Sample.error_object (Sample.event "GET" []) Sample.post_only
             Sample.options [] eq_refl eq_refl); [discriminate | reflexivity].
Defined.

(** C3, as stated, fails: a HEAD request that falls back to a GET handler
    which returns a string is answered with the diagnostic 500, text
    included. *)
Lemma head_diagnostic_keeps_body :
  Sample.get_only (VString "hello") !! "HEAD" = None
  /\ defined (Sample.get_only (VString "hello") !! "GET") = true
  /\ run (Sample.event "HEAD" []) (Sample.get_only (VString "hello")) Sample.options []
     = (Ok {| body := VString "Invalid response from route /items: expected an object, got string";
              status := VNumber 500;
              headers := [] |}, []).
Proof. repeat split; vm_compute; reflexivity. Qed.

(** C2, as stated, fails, in three ways.  A HEAD request whose handler
    returns a number is answered with the diagnostic 500, and that response
    has its text.  A handler that returns status 101 gets no response at
    all: the constructor refuses the status.  And a handler that returns a
    null body with a text content type gets a response without body,
    although the method is GET and the status 200. *)
Lemma bodyless_rule_exceptions :
  run_checked (Sample.event "HEAD" [])
      ({[ "HEAD" := Sample.returning (VNumber 42) ]} : Module_) Sample.options []
  = (Ok {| body := VString "Invalid response from route /items: expected an object, got number";
           status := VNumber 500;
           headers := [] |}, [])
  /\ (exists message σ',
        run_checked (Sample.event "GET" [])
            (Sample.get_only (VObject [("status", VNumber 101); ("body", Sample.a1)]))
            Sample.options []
        = (Thrown (RangeError message), σ'))
  /\ run_checked (Sample.event "GET" [])
        (Sample.get_only (VObject [("headers", VObject [("content-type", VString "text/plain")]);
                                   ("body", VNull)]))
        Sample.options []
     = (Ok {| body := VNull;
              status := VNumber 200;
              headers := [("content-type", "text/plain")] |},
        [[("content-type", "text/plain")]]).
Proof.
  split; [vm_compute; reflexivity|].
  split; [eexists _, _; vm_compute; reflexivity | vm_compute; reflexivity].
Qed.

Lemma bodyless_enforcement_witness :
  (exists r σ',
     run_checked (Sample.event "GET" [])
         (Sample.get_only (VObject [("status", VNumber 204); ("body", Sample.a1)]))
         Sample.options [] = (Ok r, σ')
     /\ status r = VNumber 204 /\ body r = VUndefined)
  /\ (exists r σ',
        run_checked (Sample.event "GET" [])
            (Sample.get_only (VObject [("status", VNumber 201); ("body", Sample.a1)]))
            Sample.options [] = (Ok r, σ')
        /\ status r = VNumber 201
        /\ body r = VString (Sample.json_encode Sample.a1))
  /\ (exists message σ',
        run_checked (Sample.event "GET" [])
            (Sample.get_only (VObject [("status", VNumber 101); ("body", Sample.a1)]))
            Sample.options [] = (Thrown (RangeError message), σ'))
  /\ (exists message σ',
        run_checked (Sample.event "GET" [])
            (Sample.get_only (VObject [("status", VNumber 65740); ("body", Sample.a1)]))
            Sample.options [] = (Thrown (TypeError message), σ')).
Proof.
  assert (H : forall n : Z,
             let v := VObject [("status", VNumber n); ("body", Sample.a1)] in
             dispatched Sample.check_method_names (Sample.event "GET" [])
               (Sample.get_only v) [] v []
             /\ well_formed v
             /\ body_accepted (content_type_of [] v) (body_of v) = true).
  { intros n v. split; [dispatched_by (Sample.returning v)|].
    split; [well_formed_now | reflexivity]. }
  split; [|split; [|split]].
  - destruct (H 204%Z) as (Hd & Hw & Hacc).
    destruct (bodyless_enforcement Sample.check_method_names Sample.hash Sample.json_encode
                bool Sample.error_object Sample.to_integer _ _ Sample.options _ _ _ Hd Hw Hacc)
      as (_ & Hb & _).
    destruct Hb as (r & Hrun & Hs & Hbody);
      [vm_compute; split; discriminate
      | right; exists 204%Z; split; [reflexivity | lia] |].
    exists r. eexists. split; [exact Hrun|]. split; [exact Hs | exact Hbody].
  - destruct (H 201%Z) as (Hd & Hw & Hacc).
    destruct (bodyless_enforcement Sample.check_method_names Sample.hash Sample.json_encode
                bool Sample.error_object Sample.to_integer _ _ Sample.options _ _ _ Hd Hw Hacc)
      as (_ & _ & Hb & _).
    destruct Hb as (r & Hrun & Hs & Hbody & _);
      [vm_compute; split; discriminate | discriminate
      | vm_compute; intros [E | [E | E]]; discriminate |].
    exists r. eexists. split; [exact Hrun|]. split; [exact Hs | exact Hbody].
  - destruct (H 101%Z) as (Hd & Hw & Hacc).
    destruct (bodyless_enforcement Sample.check_method_names Sample.hash Sample.json_encode
                bool Sample.error_object Sample.to_integer _ _ Sample.options _ _ _ Hd Hw Hacc)
      as (Hb & _).
    destruct Hb as (message & Hrun); [vm_compute; intros [E _]; apply E; reflexivity|].
    exists message. eexists. exact Hrun.
  - destruct (H 65740%Z) as (Hd & Hw & Hacc).
    destruct (bodyless_enforcement Sample.check_method_names Sample.hash Sample.json_encode
                bool Sample.error_object Sample.to_integer _ _ Sample.options _ _ _ Hd Hw Hacc)
      as (_ & _ & _ & Hb).
    destruct Hb as (message & Hrun);
      [discriminate | left; reflexivity
      | intros (n & Hn & Hv); injection Hn as <-; lia | discriminate |].
    exists message. eexists. exact Hrun.
Defined.

Lemma head_falls_back_to_get_witness :
  exists r σ',
    run (Sample.event "HEAD" []) (Sample.get_only (VObject [("body", Sample.a1)]))
        Sample.options [] = (Ok r, σ')
    /\ body r = VUndefined.
Proof.
  pose (v := VObject [("body", Sample.a1)]).
  destruct (head_falls_back_to_get Sample.check_method_names Sample.hash Sample.json_encode
              bool Sample.error_object (Sample.event "HEAD" []) (Sample.get_only v)
              Sample.options [] (Sample.returning v) eq_refl eq_refl eq_refl eq_refl)
    as [_ H].
  apply (H v []); [reflexivity | well_formed_now | reflexivity].
Defined.

(** C4, as stated, fails.  A JSON-like body under application/json-patch+json,
    which starts with application/json, is not encoded: the body check comes
    first and answers with the diagnostic 500.  The same body under
    application/octet-stream, a content-type that is not JSON, does not pass
    through either.  Under a content-type that is present but empty it is
    encoded rather than passed through.  And with status 204 the response
    has no body at all. *)
Lemma json_encoding_exceptions :
  (exists σ',
     run (Sample.event "GET" [])
         (Sample.get_only
            (VObject [("headers", VObject [("content-type", VString "application/json-patch+json")]);
                      ("body", Sample.a1)]))
         Sample.options []
     = (Ok {| body := VString "Invalid response from route /items: body must be an instance of string, Uint8Array or ReadableStream if content-type is not a supported textual content-type";
              status := VNumber 500;
              headers := [] |}, σ'))
  /\ (exists σ',
        run (Sample.event "GET" [])
            (Sample.get_only
               (VObject [("headers", VObject [("content-type", VString "application/octet-stream")]);
                         ("body", Sample.a1)]))
            Sample.options []
        = (Ok {| body := VString "Invalid response from route /items: body must be an instance of string, Uint8Array or ReadableStream if content-type is not a supported textual content-type";
                 status := VNumber 500;
                 headers := [] |}, σ'))
  /\ (exists r σ',
        run (Sample.event "GET" [])
            (Sample.get_only (VObject [("headers", VHeaders 0); ("body", Sample.a1)]))
            Sample.options [[("content-type", EmptyString)]]
        = (Ok r, σ')
        /\ body r = VString (Sample.json_encode Sample.a1)
        /\ Hdr.get "content-type" (headers r) = Some "application/json; charset=utf-8")
  /\ (exists r σ',
        run (Sample.event "GET" [])
            (Sample.get_only (VObject [("status", VNumber 204); ("body", Sample.a1)]))
            Sample.options []
        = (Ok r, σ')
        /\ body r = VUndefined).
Proof.
  split; [|split; [|split]].
  - eexists. vm_compute. reflexivity.
  - eexists. vm_compute. reflexivity.
  - eexists _, _. split; [vm_compute; reflexivity|]. split; vm_compute; reflexivity.
  - eexists _, _. split; [vm_compute; reflexivity|]. reflexivity.
Qed.

Lemma json_body_encoding_witness :
  exists r σ',
    run (Sample.event "GET" []) (Sample.get_only (VObject [("body", Sample.a1)]))
        Sample.options [] = (Ok r, σ')
    /\ Hdr.get "content-type" (headers r) = Some "application/json; charset=utf-8"
    /\ body r = VString (Sample.json_encode Sample.a1).
Proof.
  pose (v := VObject [("body", Sample.a1)]).
  assert (Hd : dispatched Sample.check_method_names (Sample.event "GET" [])
                 (Sample.get_only v) [] v []) by dispatched_by (Sample.returning v).
  assert (Hw : well_formed v) by well_formed_now.
  destruct (json_body_encoding Sample.check_method_names Sample.hash Sample.json_encode
              bool Sample.error_object _ _ Sample.options _ _ _ Hd Hw eq_refl)
    as (r & σ' & Hrun & Hjson & _).
  destruct (Hjson eq_refl (or_introl (or_introl eq_refl))) as [Hct Hb].
  exists r, σ'. split; [exact Hrun|]. split; [exact Hct|].
  assert (Hs : status r = VNumber 200).
  { vm_compute in Hrun. injection Hrun as <- _. reflexivity. }
  rewrite Hs in Hb. exact Hb.
Defined.

Lemma etag_injection_witness :
  exists r σ',
    run (Sample.event "GET" []) (Sample.get_only (VObject [("body", Sample.a1)]))
        Sample.options [] = (Ok r, σ')
    /\ Hdr.get "etag" (headers r)
       = Some (dquote +:+ Sample.hash (VString (Sample.json_encode Sample.a1)) +:+ dquote).
Proof.
  pose (v := VObject [("body", Sample.a1)]).
  assert (Hd : dispatched Sample.check_method_names (Sample.event "GET" [])
                 (Sample.get_only v) [] v []) by dispatched_by (Sample.returning v).
  assert (Hw : well_formed v) by well_formed_now.
  destruct (etag_injection Sample.check_method_names Sample.hash Sample.json_encode
              bool Sample.error_object _ _ Sample.options _ _ _ Hd Hw eq_refl)
    as (r & σ' & Hrun & Hadd & _).
  exists r, σ'. split; [exact Hrun|]. apply Hadd.
  split; [left; reflexivity | split; [reflexivity | discriminate]].
Defined.

Lemma body_type_check_witness :
  exists σ',
    run (Sample.event "GET" [])
        (Sample.get_only
           (VObject [("headers", VObject [("content-type", VString "application/octet-stream")]);
                     ("body", Sample.a1)]))
        Sample.options []
    = (Ok {| body := VString "Invalid response from route /items: body must be an instance of string, Uint8Array or ReadableStream if content-type is not a supported textual content-type";
             status := VNumber 500;
             headers := [] |}, σ').
Proof.
  pose (v := VObject [("headers", VObject [("content-type", VString "application/octet-stream")]);
                      ("body", Sample.a1)]).
  assert (Hd : dispatched Sample.check_method_names (Sample.event "GET" [])
                 (Sample.get_only v) [] v []) by dispatched_by (Sample.returning v).
  assert (Hw : well_formed v) by well_formed_now.
  destruct (body_type_check Sample.check_method_names Sample.hash Sample.json_encode
              bool Sample.error_object _ _ Sample.options _ _ _ Hd Hw)
    as (Hreject & _ & _).
  apply Hreject; vm_compute; reflexivity.
Defined.

(** C7.  The engine at the input where it departs from the claim: a GET
    handler that returns null.  Null is not an object, yet its [typeof] is
    object, so the check of line 85 lets it through; the read of its
    fallthrough property at line 91 then throws a TypeError, and no 500
    response is returned. *)
Theorem null_result_escapes_diagnosis :
  typeof VNull = "object"
  /\ Sample.returning VNull (Sample.event "GET" []) [] = (Ok VNull, [])
  /\ exists message,
       run (Sample.event "GET" []) (Sample.get_only VNull) Sample.options []
       = (Thrown (TypeError message), []).
Proof.
  split; [reflexivity|]. split; [reflexivity|].
  eexists. vm_compute. reflexivity.
Qed.

Lemma invalid_response_shape_witness :
  run (Sample.event "GET" []) (Sample.get_only (VString "hello")) Sample.options []
  = (Ok {| body := VString "Invalid response from route /items: expected an object, got string";
           status := VNumber 500;
           headers := [] |}, []).
Proof.
  apply (invalid_response_shape Sample.check_method_names Sample.hash Sample.json_encode
           bool Sample.error_object (Sample.event "GET" [])
           (Sample.get_only (VString "hello")) Sample.options [] (VString "hello") []).
  - dispatched_by (Sample.returning (VString "hello")).
  - discriminate.
Defined.

Lemma fallthrough_is_fatal_witness :
  run (Sample.event "GET" []) (Sample.get_only (VObject [("fallthrough", VBool true)]))
      Sample.options []
  = (Thrown (Error "fallthrough is no longer supported. Use matchers instead: https://kit.svelte.dev/docs/routing#advanced-routing-matching"), []).
Proof.
  pose (v := VObject [("fallthrough", VBool true)]).
  assert (Hd : dispatched Sample.check_method_names (Sample.event "GET" [])
                 (Sample.get_only v) [] v []) by dispatched_by (Sample.returning v).
  exact (proj1 (fallthrough_is_fatal Sample.check_method_names Sample.hash Sample.json_encode
                  bool Sample.error_object _ _ Sample.options _ _ _ Hd eq_refl)).
Defined.

Lemma normalization_deterministic_witness :
  let v := VObject [("headers", VHeaders 0); ("body", Sample.a1)] in
  let σ := [[("x-powered-by", "kit")]] in
  fst (run (Sample.event "GET" []) (Sample.get_only v) Sample.options σ)
  = fst (run (Sample.event "GET" []) (Sample.get_only v) Sample.options
           (snd (run (Sample.event "GET" []) (Sample.get_only v) Sample.options σ))).
Proof.
  intros v σ.
  apply (normalization_deterministic Sample.check_method_names Sample.hash Sample.json_encode
           bool Sample.error_object (Sample.event "GET" []) (Sample.get_only v)
           Sample.options σ (Ok v)) with (σ1 := snd (run (Sample.event "GET" []) (Sample.get_only v) Sample.options σ))
           (σ2 := snd (run (Sample.event "GET" []) (Sample.get_only v) Sample.options
                        (snd (run (Sample.event "GET" []) (Sample.get_only v) Sample.options σ)))).
  - intros handler H τ. vm_compute in H. injection H as <-. reflexivity.
  - intros response l H Hl. injection H as <-. vm_compute in Hl. injection Hl as <-.
    eexists. reflexivity.
  - apply surjective_pairing.
  - apply surjective_pairing.
Defined.

Lemma handler_headers_untouched_witness :
  let mod_ : Module_ :=
    {[ "GET" := Sample.with_headers [("x-powered-by", "kit")]
                  (fun l => VObject [("headers", VHeaders l); ("body", Sample.a1)]) ]} in
  snd (run (Sample.event "GET" []) mod_ Sample.options []) !! 0%nat
  = Some [("x-powered-by", "kit")].
Proof.
  intros mod_.
  apply (handler_headers_untouched Sample.check_method_names Sample.hash Sample.json_encode
           bool Sample.error_object (Sample.event "GET" []) mod_ Sample.options []
           (VObject [("headers", VHeaders 0); ("body", Sample.a1)])
           [[("x-powered-by", "kit")]]
           (fst (run (Sample.event "GET" []) mod_ Sample.options []))).
  - split; [reflexivity|].
    exists (Sample.with_headers [("x-powered-by", "kit")]
              (fun l => VObject [("headers", VHeaders l); ("body", Sample.a1)])).
    split; reflexivity.
  - apply surjective_pairing.
  - reflexivity.
Defined.

(** ** The command line *)

Lemma split_nonempty (sep : ascii) (s : string) : Cli.split sep s <> [].
Proof.
  destruct s as [|c r]; simpl; [discriminate|].
  destruct (Ascii.eqb c sep); [discriminate|].
  destruct (Cli.split sep r); discriminate.
Qed.

Lemma join_cons_char (c : ascii) (first : string) (others : list string) :
  Js.join Cli.nl (String c first :: others) = String c (Js.join Cli.nl (first :: others)).
Proof. destruct others; reflexivity. Qed.

(** Splitting at line feeds and joining with line feeds gives the string
    back. *)
Lemma join_split (s : string) : Js.join Cli.nl (Cli.split "010" s) = s.
Proof.
  induction s as [|c r IH]; [reflexivity|]. simpl.
  destruct (Ascii.eqb_spec c "010") as [->|Hc].
  - destruct (Cli.split "010" r) as [|first others] eqn:E;
      [exact (False_ind _ (split_nonempty _ _ E))|].
    change (Js.join Cli.nl (EmptyString :: first :: others))
      with (String "010" (Js.join Cli.nl (first :: others))).
    rewrite IH. reflexivity.
  - destruct (Cli.split "010" r) as [|first others] eqn:E;
      [exact (False_ind _ (split_nonempty _ _ E))|].
    rewrite join_cons_char, IH. reflexivity.
Qed.

Lemma no_line_feed_cons (c : ascii) (t : string) :
  Js.includes (String c t) Cli.nl = false ->
  Ascii.eqb c "010" = false /\ Js.includes t Cli.nl = false.
Proof.
  intros H. change (Js.includes (String c t) Cli.nl)
    with (Js.startsWith (String c t) Cli.nl || Js.includes t Cli.nl) in H.
  apply orb_false_iff in H as [Hc Ht]. split; [|exact Ht].
  destruct (Ascii.eqb_spec c "010") as [->|_]; [|reflexivity].
  destruct t; discriminate.
Qed.

Lemma split_first_line (first rest : string) :
  Js.includes first Cli.nl = false ->
  Cli.split "010" (first +:+ Cli.nl +:+ rest) = first :: Cli.split "010" rest.
Proof.
  induction first as [|c t IH]; intros H; [reflexivity|].
  apply no_line_feed_cons in H as [Hc Ht].
  change (String c t +:+ Cli.nl +:+ rest) with (String c (t +:+ Cli.nl +:+ rest)).
  simpl. rewrite Hc, (IH Ht). reflexivity.
Qed.

Lemma split_one_line (s : string) :
  Js.includes s Cli.nl = false -> Cli.split "010" s = [s].
Proof.
  induction s as [|c t IH]; intros H; [reflexivity|].
  apply no_line_feed_cons in H as [Hc Ht]. simpl. rewrite Hc, (IH Ht). reflexivity.
Qed.

Lemma handle_error_not_returned (im : Cli.Imports) (e : Cli.thrown) (out out' : list Cli.line) :
  Cli.handle_error im e out <> (Cli.Returned tt, out').
Proof.
  unfold Cli.handle_error.
  destruct (String.eqb (Cli.name (Cli.coalesce_to_error im e)) "SyntaxError"); [discriminate|].
  unfold Cli.bind, Cli.console_error, Cli.process_exit, Cli.ret.
  destruct (truthy_str (Cli.stack (Cli.coalesce_to_error im e))); discriminate.
Qed.

(** X15.  [handle_error] never returns.  A SyntaxError is thrown on, and
    nothing is printed; for every other error the process ends with exit
    code 1, and the first line written to the error stream is the message
    behind an angle bracket, in bold red. *)
Theorem handle_error_never_returns (im : Cli.Imports) (e : Cli.thrown) (out : list Cli.line) :
  let error := Cli.coalesce_to_error im e in
  (Cli.name error = "SyntaxError" ->
   Cli.handle_error im e out = (Cli.Threw (Cli.AnError error), out))
  /\ (Cli.name error <> "SyntaxError" ->
      exists more,
        Cli.handle_error im e out
        = (Cli.Exited 1,
           (out ++ Cli.StdErr (Cli.bold_red (Cli.colors im) ("> " +:+ Cli.message error))
                :: more)%list))
  /\ (forall out', Cli.handle_error im e out <> (Cli.Returned tt, out')).
Proof.
  intros error. unfold Cli.handle_error. fold error.
  destruct (String.eqb_spec (Cli.name error) "SyntaxError") as [E|E].
  - split; [reflexivity | split; [contradiction | discriminate]].
  - split; [contradiction|].
    unfold Cli.bind, Cli.console_error, Cli.process_exit, Cli.ret.
    destruct (truthy_str (Cli.stack error)); simpl.
    + split; [|discriminate]. intros _. eexists. rewrite <- app_assoc. reflexivity.
    + split; [|discriminate]. intros _. exists []. reflexivity.
Qed.

(** X16.  What [handle_error] prints of the stack of an error that is not a
    SyntaxError.  A stack of several lines is printed in grey without its
    first line, after the message; a stack of one line is printed as an
    empty grey line; without a stack, or with an empty one, only the message
    is printed. *)
Theorem stack_loses_first_line (im : Cli.Imports) (e : Cli.thrown) (out : list Cli.line) :
  let error := Cli.coalesce_to_error im e in
  let headline := Cli.StdErr (Cli.bold_red (Cli.colors im) ("> " +:+ Cli.message error)) in
  Cli.name error <> "SyntaxError" ->
  (forall first rest,
     Js.includes first Cli.nl = false ->
     Cli.stack error = Some (first +:+ Cli.nl +:+ rest) ->
     Cli.handle_error im e out
     = (Cli.Exited 1, (out ++ [headline; Cli.StdErr (Cli.gray (Cli.colors im) rest)])%list))
  /\ (forall only,
        only <> "" ->
        Js.includes only Cli.nl = false ->
        Cli.stack error = Some only ->
        Cli.handle_error im e out
        = (Cli.Exited 1, (out ++ [headline; Cli.StdErr (Cli.gray (Cli.colors im) "")])%list))
  /\ (Cli.stack error = None \/ Cli.stack error = Some "" ->
      Cli.handle_error im e out = (Cli.Exited 1, (out ++ [headline])%list)).
Proof.
  intros error headline Hname. unfold Cli.handle_error. fold error.
  destruct (String.eqb_spec (Cli.name error) "SyntaxError") as [E|_]; [contradiction|].
  unfold Cli.bind, Cli.console_error, Cli.process_exit, Cli.ret. fold headline.
  split; [|split].
  - intros first rest Hfirst Hstack. rewrite Hstack.
    assert (Htruthy : truthy_str (Some (first +:+ Cli.nl +:+ rest)) = true)
      by (destruct first; reflexivity).
    rewrite Htruthy. change (default "" (Some ?x)) with x.
    rewrite (split_first_line _ _ Hfirst). simpl tl. rewrite join_split.
    rewrite <- app_assoc. reflexivity.
  - intros only Hne Hone Hstack. rewrite Hstack.
    assert (Htruthy : truthy_str (Some only) = true)
      by (destruct only; [contradiction | reflexivity]).
    rewrite Htruthy. change (default "" (Some ?x)) with x.
    rewrite (split_one_line _ Hone). simpl. rewrite <- app_assoc. reflexivity.
  - intros [Hstack | Hstack]; rewrite Hstack; reflexivity.
Qed.

(** X17.  The sync command.  Without a svelte.config.js it warns and returns,
    and loads nothing.  With one, it returns when loading the configuration,
    importing the sync module and running it all return; an exception from
    any of the three goes to [handle_error], so the command ends the process
    with exit code 1, or throws on when the error is a SyntaxError; it never
    returns after an exception.  An exit inside the three steps is not
    caught. *)
Theorem sync_action_outcomes (im : Cli.Imports) (out : list Cli.line) :
  let steps :=
    Cli.bind (Cli.load_config im) (fun config =>
    Cli.bind (Cli.import_sync im) (fun sync_all => sync_all config)) in
  (Cli.existsSync im "svelte.config.js" = false ->
   Cli.sync_action im out
   = (Cli.Returned tt, (out ++ [Cli.Warning "Missing svelte.config.js — skipping"])%list))
  /\ (Cli.existsSync im "svelte.config.js" = true ->
      (forall out', steps out = (Cli.Returned tt, out') ->
                    Cli.sync_action im out = (Cli.Returned tt, out'))
      /\ (forall e out', steps out = (Cli.Threw e, out') ->
                         Cli.sync_action im out = Cli.handle_error im e out'
                         /\ forall out'', Cli.sync_action im out <> (Cli.Returned tt, out''))
      /\ (forall code out', steps out = (Cli.Exited code, out') ->
                            Cli.sync_action im out = (Cli.Exited code, out'))).
Proof.
  intros steps. unfold Cli.sync_action. split.
  - intros ->. reflexivity.
  - intros ->. unfold steps, Cli.try_catch. simpl. split.
    + intros out' ->. reflexivity.
    + split.
      * intros e out' ->. split; [reflexivity|]. apply handle_error_not_returned.
      * intros code out' ->. reflexivity.
Qed.

(** ** The further properties at work *)

Lemma allow_header_is_head_or_empty_witness :
  run (Sample.event "DELETE" [])
      Sample.get_and_post
      Sample.options []
  = (Ok {| body := VString "DELETE method not allowed";
           status := VNumber 405;
           headers := [("allow", "HEAD")] |}, []).
Proof.
  etransitivity.
  - apply (allow_header_is_head_or_empty Sample.check_method_names Sample.hash
             Sample.json_encode bool Sample.error_object (Sample.event "DELETE" [])
             Sample.get_and_post
             Sample.options [] eq_refl).
    + vm_compute. reflexivity.
    + discriminate.
    + reflexivity.
    + intros k Hk. simpl in Hk.
      destruct Hk as [<-|[<-|[<-|[<-|[<-|[]]]]]]; vm_compute; reflexivity.
  - vm_compute. reflexivity.
Defined.

Lemma handler_exception_propagates_witness :
  run (Sample.event "GET" [])
      (Sample.get_only' (Sample.throwing (Error "database is down")))
      Sample.options []
  = (Thrown (Error "database is down"), []).
Proof.
  apply (handler_exception_propagates Sample.check_method_names Sample.hash
           Sample.json_encode bool Sample.error_object (Sample.event "GET" [])
           (Sample.get_only' (Sample.throwing (Error "database is down")))
           Sample.options [] (Sample.throwing (Error "database is down")));
    reflexivity.
Defined.

Lemma null_result_throws_witness :
  exists message,
    run (Sample.event "GET" []) (Sample.get_only VNull) Sample.options []
    = (Thrown (TypeError message), []).
Proof.
  apply (null_result_throws Sample.check_method_names Sample.hash Sample.json_encode
           bool Sample.error_object (Sample.event "GET" []) (Sample.get_only VNull)
           Sample.options [] []).
  dispatched_by (Sample.returning VNull).
Defined.

Lemma exact_handler_invoked_witness :
  run (Sample.event "HEAD" [])
      Sample.head_and_get
      Sample.options []
  = (Ok {| body := VString "Invalid response from route /items: expected an object, got number";
           status := VNumber 500;
           headers := [] |}, [])
  /\ Sample.returning (VNumber 1) (Sample.event "HEAD" []) [] = (Ok (VNumber 1), []).
Proof.
  split; [|reflexivity].
  rewrite (exact_handler_invoked Sample.check_method_names Sample.hash Sample.json_encode
             bool Sample.error_object (Sample.event "HEAD" [])
             Sample.head_and_get
             Sample.options [] (Sample.returning (VNumber 1)) eq_refl
             ltac:(vm_compute; reflexivity)).
  reflexivity.
Defined.

Lemma head_mirrors_get_witness :
  exists r',
    run (Sample.event "HEAD" []) (Sample.get_only (VObject [("body", Sample.a1)]))
        Sample.options []
    = (Ok r', snd (run (Sample.event "GET" []) (Sample.get_only (VObject [("body", Sample.a1)]))
                       Sample.options []))
    /\ status r' = VNumber 200
    /\ Hdr.get "content-type" (headers r') = Some "application/json; charset=utf-8".
Proof.
  pose (v := VObject [("body", Sample.a1)]).
  pose (got := run (Sample.event "GET" []) (Sample.get_only v) Sample.options []).
  destruct (head_mirrors_get Sample.check_method_names Sample.hash Sample.json_encode
              bool Sample.error_object (Sample.event "GET" []) (Sample.event "HEAD" [])
              (Sample.get_only v) Sample.options [] (Sample.returning v) v []
              {| body := VString (Sample.json_encode Sample.a1);
                 status := VNumber 200;
                 headers := [("content-type", "application/json; charset=utf-8");
                             ("etag", dquote +:+ Sample.hash (VString (Sample.json_encode Sample.a1))
                                      +:+ dquote)] |}
              (snd got)
              eq_refl eq_refl eq_refl eq_refl eq_refl eq_refl eq_refl eq_refl)
    as (r' & Hrun & Hs & Hh).
  exists r'. split; [exact Hrun|]. split; [exact Hs|]. rewrite Hh. reflexivity.
Defined.

Lemma missing_body_is_empty_object_witness :
  exists r σ',
    run (Sample.event "GET" []) (Sample.get_only (VObject [])) Sample.options [] = (Ok r, σ')
    /\ Hdr.get "content-type" (headers r) = Some "application/json; charset=utf-8"
    /\ body r = VString "{}".
Proof.
  assert (Hd : dispatched Sample.check_method_names (Sample.event "GET" [])
                 (Sample.get_only (VObject [])) [] (VObject []) [])
    by dispatched_by (Sample.returning (VObject [])).
  assert (Hw : well_formed (VObject [])) by well_formed_now.
  destruct (missing_body_is_empty_object Sample.check_method_names Sample.hash
              Sample.json_encode bool Sample.error_object _ _ Sample.options _ _ _
              Hd Hw eq_refl (or_introl eq_refl))
    as (r & σ' & Hrun & Hs & Hct & Hb).
  exists r, σ'. split; [exact Hrun|]. split; [exact Hct|].
  rewrite Hs in Hb. exact Hb.
Defined.

Lemma other_headers_pass_through_witness :
  let v := VObject [("headers", VObject [("x-powered-by", VString "kit");
                                         ("cache-control", VString "no-store")]);
                    ("body", Sample.a1)] in
  exists r σ',
    run (Sample.event "GET" []) (Sample.get_only v) Sample.options [] = (Ok r, σ')
    /\ Hdr.values "x-powered-by" (headers r) = ["kit"].
Proof.
  intros v.
  assert (Hd : dispatched Sample.check_method_names (Sample.event "GET" [])
                 (Sample.get_only v) [] v []) by dispatched_by (Sample.returning v).
  assert (Hw : well_formed v) by well_formed_now.
  exact (other_headers_pass_through Sample.check_method_names Sample.hash
           Sample.json_encode bool Sample.error_object _ _ Sample.options _ _ _
           "x-powered-by" Hd Hw eq_refl eq_refl eq_refl).
Defined.

Lemma single_content_type_after_encoding_witness :
  let v := VObject [("headers", VObject [("Content-Type", VString "application/json")]);
                    ("body", Sample.a1)] in
  exists r σ',
    run (Sample.event "GET" []) (Sample.get_only v) Sample.options [] = (Ok r, σ')
    /\ Hdr.values "content-type" (headers r) = ["application/json; charset=utf-8"].
Proof.
  intros v.
  assert (Hd : dispatched Sample.check_method_names (Sample.event "GET" [])
                 (Sample.get_only v) [] v []) by dispatched_by (Sample.returning v).
  assert (Hw : well_formed v) by well_formed_now.
  apply (single_content_type_after_encoding Sample.check_method_names Sample.hash
           Sample.json_encode bool Sample.error_object _ _ Sample.options _ _ _
           Hd Hw eq_refl eq_refl).
  right. exists "application/json". split; reflexivity.
Defined.

Lemma transport_body_passes_witness :
  let v := VObject [("headers", VObject [("content-type", VString "application/octet-stream")]);
                    ("body", VUint8Array [1; 2; 3]%Z)] in
  exists r σ',
    run (Sample.event "GET" []) (Sample.get_only v) Sample.options [] = (Ok r, σ')
    /\ Hdr.get "content-type" (headers r) = Some "application/octet-stream"
    /\ body r = VUint8Array [1; 2; 3]%Z.
Proof.
  intros v.
  assert (Hd : dispatched Sample.check_method_names (Sample.event "GET" [])
                 (Sample.get_only v) [] v []) by dispatched_by (Sample.returning v).
  assert (Hw : well_formed v) by well_formed_now.
  destruct (transport_body_passes Sample.check_method_names Sample.hash
              Sample.json_encode bool Sample.error_object _ _ Sample.options _ _ _
              Hd Hw (or_intror (or_introl eq_refl)))
    as (r & σ' & Hrun & Hs & Hct & Hb).
  exists r, σ'. split; [exact Hrun|]. split; [exact Hct|].
  rewrite Hs in Hb. exact Hb.
Defined.

Lemma is_text_ignores_parameters_witness :
  is_text (Some "text/html; charset=utf-8") = is_text (Some "text/html").
Proof.
  exact (proj1 (is_text_ignores_parameters "text/html" " charset=utf-8"
                  ltac:(discriminate) eq_refl)).
Defined.

Lemma is_text_case_insensitive_witness :
  is_text (Some "Application/JSON") = is_text (Some "application/json").
Proof. exact (is_text_case_insensitive "Application/JSON" "application/json" eq_refl). Defined.

Lemma stack_loses_first_line_witness :
  Cli.handle_error (Cli.failing_with Cli.no_config_export true)
    (Cli.AnError Cli.no_config_export) []
  = (Cli.Exited 1,
     [Cli.StdErr "> svelte.config.js has no default export";
      Cli.StdErr ("    at load_config" +:+ Cli.nl +:+ "    at async sync")]).
Proof.
  exact (proj1 (stack_loses_first_line (Cli.failing_with Cli.no_config_export true)
                  (Cli.AnError Cli.no_config_export) [] ltac:(discriminate))
           "Error: svelte.config.js has no default export"
           ("    at load_config" +:+ Cli.nl +:+ "    at async sync") eq_refl eq_refl).
Defined.
